(** * The request pipeline of flask.py (Flask 0.1), embedded in Rocq

    The development follows [src/flask.py]: the request-context stack, the
    flash helpers, template-context assembly, and the dispatch pipeline
    [Flask.wsgi_app] with its hooks and error handlers.

    Python values are an inductive type; dictionaries are [gmap]s; the
    thread-local [_request_ctx_stack] is the state threaded through every
    computation, and a raised exception is an outcome next to a returned
    value.  Werkzeug and Jinja2 (response construction, cookie codec, rule
    matching, template rendering) are collaborators outside the source
    file: they enter as the fields of one class, [Collaborators]. *)

From stdpp Require Import gmap strings list fin_maps.

Local Open Scope string_scope.
Local Open Scope Z_scope.
Local Open Scope list_scope.

(** ** Exceptions *)

(** The two [except] clauses of [Flask.dispatch_request] tell apart
    [werkzeug.exceptions.HTTPException] (which carries [code]) from every
    other subclass of [Exception]; the latter is kept by class name.
    What is raised without being an instance of [Exception] ([SystemExit],
    [KeyboardInterrupt], [GeneratorExit]) is caught by neither clause. *)
Inductive exc : Type :=
| HTTPException (code : Z) (description : string)
| Exception (cls : string) (arg : string)
| BaseException (cls : string) (arg : string).

Definition NotFound : exc := HTTPException 404 "Not Found".
Definition MethodNotAllowed : exc := HTTPException 405 "Method Not Allowed".
Definition KeyError (key : string) : exc := Exception "KeyError" key.
Definition AttributeError (attr : string) : exc := Exception "AttributeError" attr.
Definition TypeError (what : string) : exc := Exception "TypeError" what.

Definition is_HTTPException (e : exc) : bool :=
  match e with HTTPException _ _ => true | _ => false end.

(** [isinstance(e, Exception)] *)
Definition isinstance_Exception (e : exc) : bool :=
  match e with BaseException _ _ => false | _ => true end.

(** Outcome of a Python call: a returned value or a raised exception. *)
Inductive result (A : Type) : Type :=
| Return (a : A)
| Raise (e : exc).
Arguments Return {A} a.
Arguments Raise {A} e.

Definition is_Raise {A} (r : result A) : bool :=
  match r with Raise _ => true | Return _ => false end.

(** ** The WSGI environment *)

Record WSGIEnviron : Type := {
  PATH_INFO : string;
  REQUEST_METHOD : string;
  HTTP_COOKIE : string
}.

(** The objects a request context owns are handed to templates by
    reference; [ctx_attr] names which attribute of the context is meant. *)
Inductive ctx_attr : Type := attr_request | attr_session | attr_g.

Section Framework.

Context {Response : Type}.

(** ** Python values *)

#[warnings="-register-all"]
Inductive value : Type :=
| VNone
| VInt (n : Z)
| VStr (s : string)
| VList (items : list value)
| VTuple (items : list value)
| VResponse (r : Response)
| VException (e : exc)
| VContextAttr (a : ctx_attr).

Definition is_None (v : value) : bool :=
  match v with VNone => true | _ => false end.

(** [isinstance(rv, self.response_class)] *)
Definition isinstance_response (v : value) : option Response :=
  match v with VResponse r => Some r | _ => None end.

(** [isinstance(rv, basestring)] *)
Definition isinstance_basestring (v : value) : bool :=
  match v with VStr _ => true | _ => false end.

(** [isinstance(rv, tuple)] *)
Definition isinstance_tuple (v : value) : option (list value) :=
  match v with VTuple items => Some items | _ => None end.

(** ** Requests, routing table, request contexts *)

(** [class Request(RequestBase)]: the environment plus the two attributes
    the constructor initialises to [None]. *)
Record Request : Type := {
  environ : WSGIEnviron;
  endpoint : option string;
  view_args : option (gmap string value)
}.

Definition Request__init__ (env : WSGIEnviron) : Request :=
  {| environ := env; endpoint := None; view_args := None |}.

(** A [werkzeug.routing.Rule] as [Flask.add_url_rule] builds it. *)
Record Rule : Type := {
  rule_string : string;
  rule_endpoint : string;
  rule_methods : option (list string);
  rule_build_only : bool
}.

(** [url_map.bind_to_environ(environ)]: the table bound to one request. *)
Record MapAdapter : Type := {
  adapter_map : list Rule;
  adapter_path_info : string;
  adapter_method : string
}.

Definition bind_to_environ (url_map : list Rule) (env : WSGIEnviron) : MapAdapter :=
  {| adapter_map := url_map;
     adapter_path_info := PATH_INFO env;
     adapter_method := REQUEST_METHOD env |}.

(** [class _RequestContext].  The [app] attribute is not stored: every
    operation that reads [self.app] or [current_app] takes the
    application as an argument. *)
Record RequestContext : Type := {
  url_adapter : MapAdapter;
  request : Request;
  session : option (gmap string value);
  g : gmap string value;
  flashes : value
}.

(** ** The context stack and the computation monad *)

(** [_request_ctx_stack] of the serving thread; the head is [top]. *)
Definition LocalStack : Type := list RequestContext.

Definition M (A : Type) : Type := LocalStack → result A * LocalStack.

Definition ret {A} (a : A) : M A := λ st, (Return a, st).
Definition raise {A} (e : exc) : M A := λ st, (Raise e, st).

Definition bind {A B} (m : M A) (k : A → M B) : M B :=
  λ st, match m st with
        | (Return a, st') => k a st'
        | (Raise e, st') => (Raise e, st')
        end.

(** [try: body  except ..., e: handler] *)
Definition try_except {A} (body : M A) (handler : exc → M A) : M A :=
  λ st, match body st with
        | (Return a, st') => (Return a, st')
        | (Raise e, st') => handler e st'
        end.

Definition lift_result {A} (r : result A) : M A := λ st, (r, st).

Notation "'let!' x ':=' m 'in' k" := (bind m (λ x, k))
  (at level 10, x pattern, m at level 100, k at level 200).

(** [LocalStack.push], [LocalStack.pop] (a no-op on the empty stack) and
    [LocalStack.top] ([None] on the empty stack). *)
Definition push (ctx : RequestContext) (st : LocalStack) : LocalStack := ctx :: st.
Definition pop (st : LocalStack) : LocalStack := tail st.
Definition top (st : LocalStack) : option RequestContext := head st.

(** Reading an attribute of [_request_ctx_stack.top]: with no active
    context [top] is [None] and the attribute access raises. *)
Definition top_ctx : M RequestContext :=
  λ st, match top st with
        | Some ctx => (Return ctx, st)
        | None => (Raise (AttributeError "top"), st)
        end.

(** Assigning to attributes of the top context: the object on the stack
    is updated in place. *)
Definition set_top (ctx : RequestContext) : M unit :=
  λ st, match st with
        | _ :: below => (Return tt, ctx :: below)
        | [] => (Raise (AttributeError "top"), st)
        end.

(** ** Collaborators outside the source file *)

Class Collaborators : Type := {
  (** werkzeug's response constructor called with positional arguments,
      under the subclass attribute [default_mimetype = 'text/html']. *)
  Response__init__ : list value → result Response;
  (** [Response.force_type(rv, environ)] *)
  Response_force_type : value → WSGIEnviron → result Response;
  (** [SecureCookie.load_cookie(request, name, secret_key=key)] *)
  load_cookie : Request → string → string → gmap string value;
  (** [session.save_cookie(response, name)], which writes on [response] *)
  save_cookie : gmap string value → Response → string → Response;
  (** [Rule.match(path)] for a rule string: the captured arguments *)
  Rule_match : string → string → option (gmap string value);
  (** [jinja_env.get_template(name).render(context)] *)
  Template_render : string → gmap string value → M value
}.

Context `{Collaborators}.

(** ** The application object *)

Record Flask : Type := {
  debug : bool;
  package_name : string;
  secret_key : option string;
  session_cookie_name : string;
  view_functions : gmap string (gmap string value → M value);
  error_handlers : gmap Z (exc → M value);
  before_request_funcs : list (M value);
  after_request_funcs : list (Response → M Response);
  template_context_processors : list (M (gmap string value));
  url_map : list Rule
}.

(** [_default_template_ctx_processor] *)
Definition _default_template_ctx_processor : M (gmap string value) :=
  let! reqctx := top_ctx in
  ret (<["request" := VContextAttr attr_request]>
       (<["session" := match session reqctx with
                       | Some _ => VContextAttr attr_session
                       | None => VNone
                       end]>
       (<["g" := VContextAttr attr_g]> ∅))).

Definition static_path : string := "/static".

(** [Flask.__init__] with the class attributes at their defaults. *)
Definition Flask__init__ (name : string) : Flask :=
  {| debug := false;
     package_name := name;
     secret_key := None;
     session_cookie_name := "session";
     view_functions := ∅;
     error_handlers := ∅;
     before_request_funcs := [];
     after_request_funcs := [];
     template_context_processors := [_default_template_ctx_processor];
     url_map := [ {| rule_string := static_path +:+ "/<filename>";
                     rule_endpoint := "static";
                     rule_methods := None;
                     rule_build_only := true |} ] |}.

Definition set_debug (b : bool) (self : Flask) : Flask :=
  {| debug := b;
     package_name := package_name self;
     secret_key := secret_key self;
     session_cookie_name := session_cookie_name self;
     view_functions := view_functions self;
     error_handlers := error_handlers self;
     before_request_funcs := before_request_funcs self;
     after_request_funcs := after_request_funcs self;
     template_context_processors := template_context_processors self;
     url_map := url_map self |}.

Definition set_secret_key (key : option string) (self : Flask) : Flask :=
  {| debug := debug self;
     package_name := package_name self;
     secret_key := key;
     session_cookie_name := session_cookie_name self;
     view_functions := view_functions self;
     error_handlers := error_handlers self;
     before_request_funcs := before_request_funcs self;
     after_request_funcs := after_request_funcs self;
     template_context_processors := template_context_processors self;
     url_map := url_map self |}.

(** [Flask.add_url_rule(rule, endpoint, **options)]; [methods] is the
    option the source defaults to [('GET',)]. *)
Definition add_url_rule (rule ep : string) (methods : option (list string))
    (self : Flask) : Flask :=
  {| debug := debug self;
     package_name := package_name self;
     secret_key := secret_key self;
     session_cookie_name := session_cookie_name self;
     view_functions := view_functions self;
     error_handlers := error_handlers self;
     before_request_funcs := before_request_funcs self;
     after_request_funcs := after_request_funcs self;
     template_context_processors := template_context_processors self;
     url_map := url_map self ++
       [ {| rule_string := rule;
            rule_endpoint := ep;
            rule_methods := Some (default ["GET"] methods);
            rule_build_only := false |} ] |}.

(** [Flask.route(rule, **options)(f)], [name] being [f.__name__]. *)
Definition route (rule name : string) (methods : option (list string))
    (f : gmap string value → M value) (self : Flask) : Flask :=
  let self' := add_url_rule rule name methods self in
  {| debug := debug self';
     package_name := package_name self';
     secret_key := secret_key self';
     session_cookie_name := session_cookie_name self';
     view_functions := <[name := f]> (view_functions self');
     error_handlers := error_handlers self';
     before_request_funcs := before_request_funcs self';
     after_request_funcs := after_request_funcs self';
     template_context_processors := template_context_processors self';
     url_map := url_map self' |}.

(** [Flask.errorhandler(code)(f)] *)
Definition errorhandler (code : Z) (f : exc → M value) (self : Flask) : Flask :=
  {| debug := debug self;
     package_name := package_name self;
     secret_key := secret_key self;
     session_cookie_name := session_cookie_name self;
     view_functions := view_functions self;
     error_handlers := <[code := f]> (error_handlers self);
     before_request_funcs := before_request_funcs self;
     after_request_funcs := after_request_funcs self;
     template_context_processors := template_context_processors self;
     url_map := url_map self |}.

(** [Flask.before_request(f)] *)
Definition before_request (f : M value) (self : Flask) : Flask :=
  {| debug := debug self;
     package_name := package_name self;
     secret_key := secret_key self;
     session_cookie_name := session_cookie_name self;
     view_functions := view_functions self;
     error_handlers := error_handlers self;
     before_request_funcs := before_request_funcs self ++ [f];
     after_request_funcs := after_request_funcs self;
     template_context_processors := template_context_processors self;
     url_map := url_map self |}.

(** [Flask.after_request(f)] *)
Definition after_request (f : Response → M Response) (self : Flask) : Flask :=
  {| debug := debug self;
     package_name := package_name self;
     secret_key := secret_key self;
     session_cookie_name := session_cookie_name self;
     view_functions := view_functions self;
     error_handlers := error_handlers self;
     before_request_funcs := before_request_funcs self;
     after_request_funcs := after_request_funcs self ++ [f];
     template_context_processors := template_context_processors self;
     url_map := url_map self |}.

(** [Flask.context_processor(f)] *)
Definition context_processor (f : M (gmap string value)) (self : Flask) : Flask :=
  {| debug := debug self;
     package_name := package_name self;
     secret_key := secret_key self;
     session_cookie_name := session_cookie_name self;
     view_functions := view_functions self;
     error_handlers := error_handlers self;
     before_request_funcs := before_request_funcs self;
     after_request_funcs := after_request_funcs self;
     template_context_processors := template_context_processors self ++ [f];
     url_map := url_map self |}.

(** ** Flash messages *)

Definition set_session (s : gmap string value) (ctx : RequestContext) : RequestContext :=
  {| url_adapter := url_adapter ctx;
     request := request ctx;
     session := Some s;
     g := g ctx;
     flashes := flashes ctx |}.

Definition set_flashes (fl : value) (ctx : RequestContext) : RequestContext :=
  {| url_adapter := url_adapter ctx;
     request := request ctx;
     session := session ctx;
     g := g ctx;
     flashes := fl |}.

Definition set_request (r : Request) (ctx : RequestContext) : RequestContext :=
  {| url_adapter := url_adapter ctx;
     request := r;
     session := session ctx;
     g := g ctx;
     flashes := flashes ctx |}.

(** [session.get('_flashes', [])] *)
Definition session_flashes (s : gmap string value) : value :=
  default (VList []) (s !! "_flashes").

(** [flash(message)]:
    [session['_flashes'] = (session.get('_flashes', [])) + [message]].
    A null session has no [get]; a stored value that is not a list cannot
    be concatenated with one. *)
Definition flash (message : value) : M value :=
  let! ctx := top_ctx in
  match session ctx with
  | None => raise (AttributeError "get")
  | Some s =>
      match session_flashes s with
      | VList old =>
          let! _ := set_top (set_session (<["_flashes" := VList (old ++ [message])]> s) ctx) in
          ret VNone
      | _ => raise (TypeError "+")
      end
  end.

(** [get_flashed_messages()]: the cache on the context is consulted
    first; only when it is [None] is [session.pop('_flashes', [])] run and
    its result stored as the cache. *)
Definition get_flashed_messages : M value :=
  let! ctx := top_ctx in
  if is_None (flashes ctx) then
    match session ctx with
    | None => raise (AttributeError "pop")
    | Some s =>
        let popped := session_flashes s in
        let! _ := set_top (set_flashes popped (set_session (delete "_flashes" s) ctx)) in
        ret popped
    end
  else ret (flashes ctx).

(** ** Template context *)

(** The loop of [Flask.update_template_context]: [context.update(func())]
    for each processor in list order.  [dict.update] lets the argument's
    entries replace those of the receiver, which is [d ∪ context]. *)
Fixpoint update_context_loop (funcs : list (M (gmap string value)))
    (context : gmap string value) : M (gmap string value) :=
  match funcs with
  | [] => ret context
  | func :: rest =>
      let! d := func in
      update_context_loop rest (d ∪ context)
  end.

(** [Flask.update_template_context(context)]; the updated dictionary is
    returned since the model has no in-place update of the argument. *)
Definition update_template_context (self : Flask)
    (context : gmap string value) : M (gmap string value) :=
  update_context_loop (template_context_processors self) context.

(** [render_template(template_name, **context)], [self] being
    [current_app]. *)
Definition render_template (self : Flask) (template_name : string)
    (context : gmap string value) : M value :=
  let! _ := top_ctx in
  let! context' := update_template_context self context in
  Template_render template_name context'.

(** ** Routing *)

Definition method_allowed (r : Rule) (method : string) : bool :=
  match rule_methods r with
  | None => true
  | Some ms => bool_decide (method ∈ ms)
  end.

(** Modelled from the spec: [MapAdapter.match] of the routing engine,
    which is not part of the source file.  Section 4.2: the first rule
    whose pattern matches the path and allows the method gives
    [(endpoint, params)]; [MethodNotAllowed] when some pattern matched the
    path but none with the method; [NotFound] when no pattern matched.
    Build-only rules take no part in matching. *)
Fixpoint match_rules (rules : list Rule) (path method : string)
    (have_match_for : bool) : result (string * gmap string value) :=
  match rules with
  | [] => if have_match_for then Raise MethodNotAllowed else Raise NotFound
  | r :: rest =>
      if rule_build_only r then match_rules rest path method have_match_for
      else match Rule_match (rule_string r) path with
           | None => match_rules rest path method have_match_for
           | Some rv =>
               if method_allowed r method then Return (rule_endpoint r, rv)
               else match_rules rest path method true
           end
  end.

Definition MapAdapter_match (a : MapAdapter) : result (string * gmap string value) :=
  match_rules (adapter_map a) (adapter_path_info a) (adapter_method a) false.

(** [Flask.match_request]: match on the top context's adapter, then
    [request.endpoint, request.view_args = rv]. *)
Definition match_request (self : Flask) : M (string * gmap string value) :=
  let! ctx := top_ctx in
  let! rv := lift_result (MapAdapter_match (url_adapter ctx)) in
  let! _ := set_top (set_request {| environ := environ (request ctx);
                                    endpoint := Some (fst rv);
                                    view_args := Some (snd rv) |} ctx) in
  ret rv.

(** ** Dispatch *)

(** The two [except] clauses of [Flask.dispatch_request]; an exception
    that matches neither goes on propagating. *)
Definition dispatch_except (self : Flask) (e : exc) : M value :=
  match e with
  | HTTPException code _ =>
      match error_handlers self !! code with
      | None => ret (VException e)
      | Some handler => handler e
      end
  | Exception _ _ =>
      match error_handlers self !! 500 with
      | None => raise e
      | Some handler => if debug self then raise e else handler e
      end
  | BaseException _ _ => raise e
  end.

(** [Flask.dispatch_request]: both the match and the subscript
    [self.view_functions[endpoint]] sit inside the [try]. *)
Definition dispatch_request (self : Flask) : M value :=
  try_except
    (let! rv := match_request self in
     match view_functions self !! fst rv with
     | None => raise (KeyError (fst rv))
     | Some f => f (snd rv)
     end)
    (dispatch_except self).

(** [Flask.make_response(rv)] *)
Definition make_response (self : Flask) (rv : value) : M Response :=
  match isinstance_response rv with
  | Some r => ret r
  | None =>
      if isinstance_basestring rv then lift_result (Response__init__ [rv])
      else match isinstance_tuple rv with
           | Some items => lift_result (Response__init__ items)
           | None =>
               let! ctx := top_ctx in
               lift_result (Response_force_type rv (environ (request ctx)))
           end
  end.

(** [Flask.preprocess_request]: falling off the loop returns [None]. *)
Fixpoint preprocess_loop (funcs : list (M value)) : M value :=
  match funcs with
  | [] => ret VNone
  | func :: rest =>
      let! rv := func in
      if is_None rv then preprocess_loop rest else ret rv
  end.

Definition preprocess_request (self : Flask) : M value :=
  preprocess_loop (before_request_funcs self).

(** [Flask.open_session(request)] *)
Definition open_session (self : Flask) (req : Request) : option (gmap string value) :=
  match secret_key self with
  | Some key => Some (load_cookie req (session_cookie_name self) key)
  | None => None
  end.

(** [Flask.save_session(session, response)] *)
Definition save_session (self : Flask) (s : option (gmap string value))
    (response : Response) : Response :=
  match s with
  | Some s => save_cookie s response (session_cookie_name self)
  | None => response
  end.

(** The loop of [Flask.process_response]:
    [response = handler(response)] for each hook in list order. *)
Fixpoint after_request_loop (funcs : list (Response → M Response))
    (response : Response) : M Response :=
  match funcs with
  | [] => ret response
  | handler :: rest =>
      let! response' := handler response in
      after_request_loop rest response'
  end.

(** [Flask.process_response(response)] *)
Definition process_response (self : Flask) (response : Response) : M Response :=
  let! ctx := top_ctx in
  let response := match session ctx with
                  | Some s => save_session self (Some s) response
                  | None => response
                  end in
  after_request_loop (after_request_funcs self) response.

(** ** The request context as a context manager *)

(** [_RequestContext.__init__(app, environ)] *)
Definition RequestContext__init__ (app : Flask) (env : WSGIEnviron) : RequestContext :=
  let req := Request__init__ env in
  {| url_adapter := bind_to_environ (url_map app) env;
     request := req;
     session := open_session app req;
     g := ∅;
     flashes := VNone |}.

(** [Flask.request_context(environ)] *)
Definition request_context (self : Flask) (env : WSGIEnviron) : RequestContext :=
  RequestContext__init__ self env.

(** [_RequestContext.__enter__] *)
Definition RequestContext__enter__ (ctx : RequestContext) (st : LocalStack) : LocalStack :=
  push ctx st.

(** [_RequestContext.__exit__(exc_type, exc_value, tb)]: [tb is None]
    exactly when the body left no exception ([raised = false]). *)
Definition RequestContext__exit__ (app : Flask) (raised : bool) (st : LocalStack) : LocalStack :=
  if negb raised || negb (debug app) then pop st else st.

(** [with ctx: body]; [__exit__] returns [None], so an exception of the
    body goes on propagating after it. *)
Definition with_context {A} (app : Flask) (ctx : RequestContext) (body : M A) : M A :=
  λ st, let (r, st') := body (RequestContext__enter__ ctx st) in
        (r, RequestContext__exit__ app (is_Raise r) st').

(** The body of the [with] block in [Flask.wsgi_app]. *)
Definition wsgi_app_body (self : Flask) : M Response :=
  let! rv := preprocess_request self in
  let! rv := (if is_None rv then dispatch_request self else ret rv) in
  let! response := make_response self rv in
  process_response self response.

(** [Flask.wsgi_app(environ, start_response)], up to the response object
    that is then called on [(environ, start_response)]. *)
Definition wsgi_app (self : Flask) (env : WSGIEnviron) : M Response :=
  with_context self (request_context self env) (wsgi_app_body self).

(** ** Vocabulary of the properties *)

(** A computation keeps the context stack when, started under an active
    context, it leaves the contexts below untouched and one context on
    top of them (the active one, possibly modified). *)
Definition keeps_stack {A} (m : M A) : Prop :=
  ∀ ctx below, ∃ ctx', snd (m (ctx :: below)) = ctx' :: below.

(** Every callback registered on the application keeps the stack. *)
Record callbacks_keep_stack (self : Flask) : Prop := {
  before_keep : Forall keeps_stack (before_request_funcs self);
  views_keep : map_Forall (λ _ f, ∀ args, keeps_stack (f args)) (view_functions self);
  handlers_keep : map_Forall (λ _ h, ∀ e, keeps_stack (h e)) (error_handlers self);
  after_keep : Forall (λ h, ∀ r, keeps_stack (h r)) (after_request_funcs self)
}.

(** The hooks of a list, run one after the other from [st], all return
    [None] and leave the stack [st']. *)
Inductive all_return_None : list (M value) → LocalStack → LocalStack → Prop :=
| arn_nil st : all_return_None [] st st
| arn_cons f fs st st' st'' :
    f st = (Return VNone, st') →
    all_return_None fs st' st'' →
    all_return_None (f :: fs) st st''.

(** Calls a request makes to the flash helpers, and their results in
    call order. *)
Inductive flash_call : Type :=
| call_flash (message : value)
| call_get_flashed_messages.

Definition run_call (c : flash_call) : M value :=
  match c with
  | call_flash message => flash message
  | call_get_flashed_messages => get_flashed_messages
  end.

Fixpoint run_calls (calls : list flash_call) : M (list value) :=
  match calls with
  | [] => ret []
  | c :: rest =>
      let! v := run_call c in
      let! vs := run_calls rest in
      ret (v :: vs)
  end.

(** What a call returns once the cache of the context holds [cached]. *)
Definition cached_answer (cached : value) (c : flash_call) : value :=
  match c with
  | call_flash _ => VNone
  | call_get_flashed_messages => cached
  end.

(** The processors' mappings collected in registration order. *)
Fixpoint collect_contexts (funcs : list (M (gmap string value)))
    : M (list (gmap string value)) :=
  match funcs with
  | [] => ret []
  | func :: rest =>
      let! d := func in
      let! ds := collect_contexts rest in
      ret (d :: ds)
  end.

(** The value the processors give a key: that of the last processor, in
    registration order, whose mapping has the key. *)
Definition lookup_processors (k : string) (ds : list (gmap string value)) : option value :=
  foldl (λ acc d, match d !! k with Some v => Some v | None => acc end) None ds.

(** [context.update(d)] for each collected mapping in turn. *)
Definition merge_contexts (context : gmap string value)
    (ds : list (gmap string value)) : gmap string value :=
  foldl (λ acc d, d ∪ acc) context ds.

(** The merge as the specification words it: processors in order, later
    ones overriding earlier ones, then the explicit context over all of
    them. *)
Definition spec_template_context (ds : list (gmap string value))
    (context : gmap string value) : gmap string value :=
  context ∪ merge_contexts ∅ ds.

(** The context holds [cached] as its flash cache, and its session is
    one [flash] can append to. *)
Definition flash_cached (cached : value) (ctx : RequestContext) : Prop :=
  flashes ctx = cached ∧ is_None cached = false ∧
  ∃ s old, session ctx = Some s ∧ session_flashes s = VList old.

(** The context once [match_request] has stored the match on the request. *)
Definition matched (ep : string) (args : gmap string value)
    (ctx : RequestContext) : RequestContext :=
  set_request {| environ := environ (request ctx);
                 endpoint := Some ep;
                 view_args := Some args |} ctx.

(** What is left of the pipeline once the value [rv] to answer with is
    known: coercion, then post-processing. *)
Definition respond (self : Flask) (rv : value) : M Response :=
  let! response := make_response self rv in
  process_response self response.

(** A rule takes part in matching and its pattern matches the path. *)
Definition rule_matches_path (path : string) (r : Rule) : bool :=
  negb (rule_build_only r) && bool_decide (is_Some (Rule_match (rule_string r) path)).

(** The body of the [try] in [Flask.dispatch_request]. *)
Definition dispatch_try (self : Flask) : M value :=
  let! rv := match_request self in
  match view_functions self !! fst rv with
  | None => raise (KeyError (fst rv))
  | Some f => f (snd rv)
  end.

(** One thread answering requests one after the other: each request is
    a call of [wsgi_app] on the stack the previous one left, whether it
    returned or raised. *)
Fixpoint serve (self : Flask) (envs : list WSGIEnviron) (st : LocalStack)
    : list (result Response) * LocalStack :=
  match envs with
  | [] => ([], st)
  | env :: rest =>
      let (r, st1) := wsgi_app self env st in
      let (rs, st2) := serve self rest st1 in
      (r :: rs, st2)
  end.

Fixpoint count_raised {A} (rs : list (result A)) : nat :=
  match rs with
  | [] => 0%nat
  | r :: rest => ((if is_Raise r then 1 else 0) + count_raised rest)%nat
  end.

(** Two contexts that differ at most in session and flash cache. *)
Definition same_request (ctx ctx' : RequestContext) : Prop :=
  url_adapter ctx' = url_adapter ctx ∧ request ctx' = request ctx ∧ g ctx' = g ctx.

(** Two sessions that agree on every key but the reserved flash key:
    both null, or both mappings with equal entries elsewhere. *)
Definition same_session_data (s s' : option (gmap string value)) : Prop :=
  match s, s' with
  | None, None => True
  | Some m, Some m' => ∀ k, k ≠ "_flashes" → m' !! k = m !! k
  | _, _ => False
  end.

End Framework.

Arguments value : clear implicits.
Arguments Request : clear implicits.
Arguments RequestContext : clear implicits.
Arguments LocalStack : clear implicits.
Arguments M : clear implicits.
Arguments Flask : clear implicits.
Arguments Collaborators : clear implicits.
Arguments flash_call : clear implicits.

(** ** A concrete instance of the collaborators, for worked examples *)

Module Example.

Record TestResponse : Type := {
  data : string;
  status_code : Z;
  headers : list (string * string)
}.

Definition test_init (args : list (value TestResponse)) : result TestResponse :=
  match args with
  | [VStr body] => Return {| data := body; status_code := 200; headers := [] |}
  | [VStr body; VInt status] => Return {| data := body; status_code := status; headers := [] |}
  | _ => Raise (TypeError "__init__")
  end.

Definition test_force_type (rv : value TestResponse) (env : WSGIEnviron) : result TestResponse :=
  match rv with
  | VException (HTTPException code description) =>
      Return {| data := description; status_code := code; headers := [] |}
  | _ => Raise (TypeError "force_type")
  end.

Definition test_save_cookie (s : gmap string (value TestResponse)) (r : TestResponse)
    (name : string) : TestResponse :=
  {| data := data r; status_code := status_code r;
     headers := ("Set-Cookie", name) :: headers r |}.

Definition test_rule_match (pattern path : string) : option (gmap string (value TestResponse)) :=
  if bool_decide (pattern = path) then Some ∅ else None.

#[export] Instance test_collaborators : Collaborators TestResponse := {|
  Response__init__ := test_init;
  Response_force_type := test_force_type;
  load_cookie := λ _ _ _, ∅;
  save_cookie := test_save_cookie;
  Rule_match := test_rule_match;
  Template_render := λ name _, ret (VStr name)
|}.

Definition get : string → WSGIEnviron :=
  λ path, {| PATH_INFO := path; REQUEST_METHOD := "GET"; HTTP_COOKIE := "" |}.

Definition text (body : string) : TestResponse :=
  {| data := body; status_code := 200; headers := [] |}.

(** A rule whose endpoint was never given a view function, and a handler
    for status 500. *)
Definition on_error : exc → M TestResponse (value TestResponse) :=
  λ _, ret (VStr "handled").

Definition orphan_app : Flask TestResponse :=
  errorhandler 500 on_error (add_url_rule "/orphan" "orphan" None (Flask__init__ "demo")).

Definition orphan_ctx : RequestContext TestResponse :=
  request_context orphan_app (get "/orphan").

(** A view function that raises a failure that is not HTTP-level. *)
Definition boom : gmap string (value TestResponse) → M TestResponse (value TestResponse) :=
  λ _, raise (Exception "ValueError" "boom").

Definition boom_app : Flask TestResponse :=
  errorhandler 500 on_error (route "/boom" "boom" None boom (Flask__init__ "demo")).

Definition boom_ctx : RequestContext TestResponse :=
  request_context boom_app (get "/boom").

Definition boom_debug_app : Flask TestResponse :=
  set_debug true (route "/boom" "boom" None boom (Flask__init__ "demo")).

(** A handler for status 404 on an application without routes. *)
Definition not_found_app : Flask TestResponse :=
  errorhandler 404 (λ _, ret (VStr "nothing here")) (Flask__init__ "demo").

Definition not_found_ctx : RequestContext TestResponse :=
  request_context not_found_app (get "/missing").

(** Three before-request hooks: the first returns [None], the second
    answers, the third would raise if it ran; and one after-request hook. *)
Definition quiet : M TestResponse (value TestResponse) := ret VNone.
Definition closed : M TestResponse (value TestResponse) := ret (VStr "closed").
Definition never : M TestResponse (value TestResponse) := raise (Exception "RuntimeError" "ran").

Definition stamp (name : string) : TestResponse → TestResponse :=
  λ r, {| data := data r; status_code := status_code r;
          headers := headers r ++ [("X-Hook", name)] |}.

Definition closed_app : Flask TestResponse :=
  after_request (λ r, ret (stamp "A" r))
    (before_request never (before_request closed (before_request quiet
      (route "/" "index" None (λ _, ret (VStr "index")) (Flask__init__ "demo"))))).

Definition closed_ctx : RequestContext TestResponse :=
  request_context closed_app (get "/").

(** Two after-request hooks, registered [A] then [B]. *)
Definition stamped_app : Flask TestResponse :=
  after_request (λ r, ret (stamp "B" r))
    (after_request (λ r, ret (stamp "A" r)) (Flask__init__ "demo")).

Definition stamped_ctx : RequestContext TestResponse :=
  request_context stamped_app (get "/").

(** A session that carries one flashed message, and an empty one. *)
Definition session_app : Flask TestResponse :=
  set_secret_key (Some "key") (Flask__init__ "demo").

Definition fresh_ctx : RequestContext TestResponse :=
  request_context session_app (get "/").

Definition flashed_session : gmap string (value TestResponse) :=
  <["_flashes" := VList [VStr "saved"]]> (<["user" := VStr "ann"]> ∅).

Definition flashed_ctx : RequestContext TestResponse :=
  set_session flashed_session fresh_ctx.

(** A context processor and an explicit context that share a key. *)
Definition inject_user : M TestResponse (gmap string (value TestResponse)) :=
  ret (<["user" := VStr "processor"]> ∅).

Definition user_app : Flask TestResponse :=
  context_processor inject_user (Flask__init__ "demo").

Definition user_ctx : RequestContext TestResponse :=
  request_context user_app (get "/").

Definition explicit_context : gmap string (value TestResponse) :=
  <["user" := VStr "explicit"]> ∅.

Definition user_mappings : list (gmap string (value TestResponse)) :=
  [ <["request" := VContextAttr attr_request]>
      (<["session" := VNone]> (<["g" := VContextAttr attr_g]> ∅));
    <["user" := VStr "processor"]> ∅ ].

(** A view function that leaves through [sys.exit], on an application
    with a handler for status 500 and [debug] off. *)
Definition leave : gmap string (value TestResponse) → M TestResponse (value TestResponse) :=
  λ _, raise (BaseException "SystemExit" "1").

Definition leave_app : Flask TestResponse :=
  errorhandler 500 on_error (route "/leave" "leave" None leave (Flask__init__ "demo")).

Definition leave_ctx : RequestContext TestResponse :=
  request_context leave_app (get "/leave").

(** One route whose view function returns a string. *)
Definition hello : gmap string (value TestResponse) → M TestResponse (value TestResponse) :=
  λ _, ret (VStr "hello").

Definition hello_app : Flask TestResponse :=
  route "/hello" "hello" None hello (Flask__init__ "demo").

Definition hello_ctx : RequestContext TestResponse :=
  request_context hello_app (get "/hello").

(** A before-request hook that raises an HTTP-level failure, on an
    application with a handler for its status code. *)
Definition deny : M TestResponse (value TestResponse) :=
  raise (HTTPException 401 "Unauthorized").

Definition guarded_app : Flask TestResponse :=
  errorhandler 401 (λ _, ret (VStr "please log in"))
    (before_request closed (before_request deny (before_request quiet
      (Flask__init__ "demo")))).

(** An after-request hook that raises, between two that do not. *)
Definition broken_app : Flask TestResponse :=
  after_request (λ r, ret (stamp "B" r))
    (after_request (λ _, raise (Exception "ValueError" "hook"))
      (after_request (λ r, ret (stamp "A" r)) (Flask__init__ "demo"))).

Definition broken_ctx : RequestContext TestResponse :=
  request_context broken_app (get "/").

(** Two functions registered under one name on two rules. *)
Definition page1 : gmap string (value TestResponse) → M TestResponse (value TestResponse) :=
  λ _, ret (VStr "first").
Definition page2 : gmap string (value TestResponse) → M TestResponse (value TestResponse) :=
  λ _, ret (VStr "second").

Definition pages_app : Flask TestResponse :=
  route "/b" "page" None page2 (route "/a" "page" None page1 (Flask__init__ "demo")).

Definition pages_ctx : RequestContext TestResponse :=
  request_context pages_app (get "/a").

End Example.

(** * Properties *)

Section Properties.

Context {Response : Type} `{!Collaborators Response}.

Implicit Types (self : Flask Response) (st below : LocalStack Response).
Implicit Types (ctx : RequestContext Response).
Implicit Types (e : exc) (rv v : value Response).

(** ** Sequencing *)

Lemma bind_Return {A B} (m : M Response A) (k : A → M Response B) st a st' :
  m st = (Return a, st') → bind m k st = k a st'.
Proof. intros Hm. unfold bind. by rewrite Hm. Qed.

Lemma bind_Raise {A B} (m : M Response A) (k : A → M Response B) st e st' :
  m st = (Raise e, st') → bind m k st = (Raise e, st').
Proof. intros Hm. unfold bind. by rewrite Hm. Qed.

Lemma try_except_Return {A} (m : M Response A) handler st a st' :
  m st = (Return a, st') → try_except m handler st = (Return a, st').
Proof. intros Hm. unfold try_except. by rewrite Hm. Qed.

Lemma try_except_Raise {A} (m : M Response A) handler st e st' :
  m st = (Raise e, st') → try_except m handler st = handler e st'.
Proof. intros Hm. unfold try_except. by rewrite Hm. Qed.

(** ** Routing and dispatch *)

Lemma match_request_Return self ctx below ep args :
  MapAdapter_match (url_adapter ctx) = Return (ep, args) →
  match_request self (ctx :: below) = (Return (ep, args), matched ep args ctx :: below).
Proof.
  intros Hm. unfold match_request, bind, top_ctx, lift_result, set_top, ret; simpl.
  by rewrite Hm.
Qed.

Lemma match_request_Raise self ctx below e :
  MapAdapter_match (url_adapter ctx) = Raise e →
  match_request self (ctx :: below) = (Raise e, ctx :: below).
Proof.
  intros Hm. unfold match_request, bind, top_ctx, lift_result; simpl.
  by rewrite Hm.
Qed.

(** When no rule that matches the path allows the method, matching fails:
    with [MethodNotAllowed] if some rule matched the path, [NotFound] if
    none did. *)
Lemma match_rules_failure rules path method seen :
  Forall (λ r, rule_matches_path path r = true → method_allowed r method = false) rules →
  match_rules rules path method seen =
    Raise (if seen || existsb (rule_matches_path path) rules
           then MethodNotAllowed else NotFound).
Proof.
  revert seen. induction rules as [|r rules IH]; intros seen Hall; simpl.
  - rewrite orb_false_r. by destruct seen.
  - apply Forall_cons in Hall as [Hr Hall].
    unfold rule_matches_path in *.
    destruct (rule_build_only r); simpl in *; [by apply IH|].
    destruct (Rule_match (rule_string r) path) as [rv|] eqn:Hrm.
    + rewrite bool_decide_eq_true_2 in Hr |- * by eauto.
      rewrite Hr by done. rewrite IH by done.
      by rewrite !orb_true_r.
    + rewrite bool_decide_eq_false_2 by (intros [? ?]; done).
      by apply IH.
Qed.

Lemma dispatch_except_generic self cls msg st :
  (debug self = true ∨ error_handlers self !! 500 = None →
     dispatch_except self (Exception cls msg) st = (Raise (Exception cls msg), st)) ∧
  (∀ handler : exc → M Response (value Response), debug self = false → error_handlers self !! 500 = Some handler →
     dispatch_except self (Exception cls msg) st = handler (Exception cls msg) st).
Proof.
  unfold dispatch_except. split.
  - intros [Hd | Hn].
    + rewrite Hd. by destruct (_ !! _).
    + by rewrite Hn.
  - intros handler Hd Hh. by rewrite Hh, Hd.
Qed.

Lemma dispatch_request_view self ctx below ep args f :
  MapAdapter_match (url_adapter ctx) = Return (ep, args) →
  view_functions self !! ep = Some f →
  dispatch_request self (ctx :: below) =
    try_except (f args) (dispatch_except self) (matched ep args ctx :: below).
Proof.
  intros Hm Hf. unfold dispatch_request, try_except.
  erewrite bind_Return by (by apply match_request_Return).
  simpl. by rewrite Hf.
Qed.

(** ** The pipeline body *)

Lemma wsgi_app_body_dispatch self st st1 :
  preprocess_request self st = (Return VNone, st1) →
  wsgi_app_body self st = bind (dispatch_request self) (respond self) st1.
Proof.
  intros Hp. unfold wsgi_app_body.
  erewrite bind_Return by exact Hp. done.
Qed.

Lemma wsgi_app_body_short_circuit self st st1 v :
  preprocess_request self st = (Return v, st1) →
  is_None v = false →
  wsgi_app_body self st = respond self v st1.
Proof.
  intros Hp Hv. unfold wsgi_app_body.
  erewrite bind_Return by exact Hp. rewrite Hv.
  unfold respond. by erewrite bind_Return by reflexivity.
Qed.

Lemma wsgi_app_unfold self env st :
  wsgi_app self env st =
    let (r, st') := wsgi_app_body self (request_context self env :: st) in
    (r, RequestContext__exit__ self (is_Raise r) st').
Proof. reflexivity. Qed.

(** ** Claims on dispatch *)

(** C1 (as amended).  A request whose path matches a rule whose endpoint
    has no entry in [view_functions] fails with a [KeyError] raised
    inside the [try] of [dispatch_request], so it is treated like any
    other failure that is not HTTP-level: it propagates out of dispatch
    when the application is in debug mode or no handler is registered for
    status 500, and otherwise the registered 500 handler is applied to it
    and its outcome is the outcome of dispatch. *)
Theorem dispatch_unregistered_endpoint self ctx below ep args :
  MapAdapter_match (url_adapter ctx) = Return (ep, args) →
  view_functions self !! ep = None →
  (debug self = true ∨ error_handlers self !! 500 = None →
     dispatch_request self (ctx :: below) =
       (Raise (KeyError ep), matched ep args ctx :: below)) ∧
  (∀ handler : exc → M Response (value Response), debug self = false → error_handlers self !! 500 = Some handler →
     dispatch_request self (ctx :: below) =
       handler (KeyError ep) (matched ep args ctx :: below)).
Proof.
  intros Hm Hv.
  assert (dispatch_request self (ctx :: below) =
          dispatch_except self (KeyError ep) (matched ep args ctx :: below)) as ->.
  { unfold dispatch_request. apply try_except_Raise.
    erewrite bind_Return by (by apply match_request_Return).
    simpl. by rewrite Hv. }
  apply dispatch_except_generic.
Qed.

(** C3 (as amended).  When the view function raises a failure that is
    not HTTP-level and is an instance of [Exception]: in debug mode, or
    with no handler registered for status 500, the failure propagates
    out of dispatch and the pipeline invocation ends with that failure;
    otherwise the outcome of the registered 500 handler, applied to the
    failure, is the outcome of dispatch.  When what the view function
    raises is not an instance of [Exception], it propagates out of
    dispatch and out of the pipeline invocation whatever the debug flag
    and the registered handlers are. *)
Theorem dispatch_generic_failure self env below0 ctx below ep args f e st2 :
  preprocess_request self (request_context self env :: below0)
    = (Return VNone, ctx :: below) →
  MapAdapter_match (url_adapter ctx) = Return (ep, args) →
  view_functions self !! ep = Some f →
  f args (matched ep args ctx :: below) = (Raise e, st2) →
  is_HTTPException e = false →
  (isinstance_Exception e = true →
     (debug self = true ∨ error_handlers self !! 500 = None →
        dispatch_request self (ctx :: below) = (Raise e, st2) ∧
        wsgi_app self env below0 = (Raise e, RequestContext__exit__ self true st2)) ∧
     (∀ handler : exc → M Response (value Response), debug self = false →
        error_handlers self !! 500 = Some handler →
        dispatch_request self (ctx :: below) = handler e st2)) ∧
  (isinstance_Exception e = false →
     dispatch_request self (ctx :: below) = (Raise e, st2) ∧
     wsgi_app self env below0 = (Raise e, RequestContext__exit__ self true st2)).
Proof.
  intros Hp Hm Hv Hf Hhttp.
  assert (dispatch_request self (ctx :: below) = dispatch_except self e st2) as Hd.
  { erewrite dispatch_request_view by done. by apply try_except_Raise. }
  assert (dispatch_request self (ctx :: below) = (Raise e, st2) →
          wsgi_app self env below0 = (Raise e, RequestContext__exit__ self true st2))
    as Hout.
  { intros Hraise. rewrite wsgi_app_unfold.
    erewrite wsgi_app_body_dispatch by exact Hp.
    by erewrite bind_Raise by exact Hraise. }
  destruct e as [code d | cls msg | cls msg]; simpl in Hhttp; [done| |].
  - split; [intros _ | done].
    destruct (dispatch_except_generic self cls msg st2) as [Hraise Hhandle].
    split.
    + intros Hcond. rewrite Hd, (Hraise Hcond) in *. split; [done|]. by apply Hout.
    + intros handler Hdebug Hh. rewrite Hd. by apply Hhandle.
  - split; [done | intros _].
    split; [exact Hd | apply Hout, Hd].
Qed.

(** C4.  An HTTP-level failure raised by routing or by the view function
    is looked up under its own status code: the outcome of the handler
    registered for that code is the outcome of dispatch, and with none
    registered the failure value itself is returned, to be coerced by
    [make_response] through [force_type].  Routing raises [NotFound] when
    no rule matches the path and [MethodNotAllowed] when rules match the
    path but none of them allows the method. *)
Theorem dispatch_http_failure self ctx below code description st2 :
  (MapAdapter_match (url_adapter ctx) = Raise (HTTPException code description)
     ∧ st2 = ctx :: below) ∨
  (∃ ep args f,
     MapAdapter_match (url_adapter ctx) = Return (ep, args) ∧
     view_functions self !! ep = Some f ∧
     f args (matched ep args ctx :: below) = (Raise (HTTPException code description), st2)) →
  (∀ handler : exc → M Response (value Response), error_handlers self !! code = Some handler →
     dispatch_request self (ctx :: below) = handler (HTTPException code description) st2) ∧
  (error_handlers self !! code = None →
     dispatch_request self (ctx :: below) =
       (Return (VException (HTTPException code description)), st2) ∧
     ∀ ctx' below',
       make_response self (VException (HTTPException code description)) (ctx' :: below') =
         (Response_force_type (VException (HTTPException code description))
            (environ (request ctx')), ctx' :: below')) ∧
  (∀ rules path method,
     Forall (λ r, rule_matches_path path r = false) rules →
     match_rules rules path method false = Raise NotFound) ∧
  (∀ rules path method,
     Exists (λ r, rule_matches_path path r = true) rules →
     Forall (λ r, rule_matches_path path r = true → method_allowed r method = false) rules →
     match_rules rules path method false = Raise MethodNotAllowed).
Proof.
  intros Hcase.
  assert (dispatch_request self (ctx :: below) =
          dispatch_except self (HTTPException code description) st2) as Hd.
  { destruct Hcase as [[Hm ->] | (ep & args & f & Hm & Hv & Hf)].
    - unfold dispatch_request. apply try_except_Raise.
      erewrite bind_Raise; [done|]. by apply match_request_Raise.
    - erewrite dispatch_request_view by done. by apply try_except_Raise. }
  split; [|split; [|split]].
  - intros handler Hh. rewrite Hd. simpl. by rewrite Hh.
  - intros Hn. split.
    + rewrite Hd. simpl. by rewrite Hn.
    + intros ctx' below'. reflexivity.
  - intros rules path method Hnone.
    rewrite match_rules_failure.
    + simpl. replace (existsb (rule_matches_path path) rules) with false; [done|].
      symmetry. apply not_true_is_false. intros Hex.
      apply existsb_exists in Hex as (r & Hin & Hr).
      rewrite Forall_forall in Hnone.
      apply list_elem_of_In in Hin. rewrite (Hnone r Hin) in Hr. done.
    + eapply Forall_impl; [exact Hnone|]. simpl. intros r Hr Hr'. congruence.
  - intros rules path method Hsome Hall.
    rewrite match_rules_failure by done. simpl.
    replace (existsb (rule_matches_path path) rules) with true; [done|].
    symmetry. apply existsb_exists. apply Exists_exists in Hsome as (r & Hin & Hr).
    exists r. split; [by apply list_elem_of_In | done].
Qed.

(** ** The context stack across a pipeline invocation *)

Lemma keeps_ret {A} (a : A) : keeps_stack (ret (Response:=Response) a).
Proof. intros ctx below. by exists ctx. Qed.

Lemma keeps_raise {A} e : keeps_stack (raise (Response:=Response) (A:=A) e).
Proof. intros ctx below. by exists ctx. Qed.

Lemma keeps_lift_result {A} (r : result A) :
  keeps_stack (lift_result (Response:=Response) r).
Proof. intros ctx below. by exists ctx. Qed.

Lemma keeps_top_ctx : keeps_stack (top_ctx (Response:=Response)).
Proof. intros ctx below. by exists ctx. Qed.

Lemma keeps_set_top ctx : keeps_stack (set_top ctx).
Proof. intros ctx0 below. by exists ctx. Qed.

Lemma keeps_bind {A B} (m : M Response A) (k : A → M Response B) :
  keeps_stack m → (∀ a, keeps_stack (k a)) → keeps_stack (bind m k).
Proof.
  intros Hm Hk ctx below. destruct (Hm ctx below) as [ctx1 E].
  unfold bind. destruct (m (ctx :: below)) as [[a|e] st1]; simpl in E; subst st1.
  - apply Hk.
  - by exists ctx1.
Qed.

Lemma keeps_try_except {A} (m : M Response A) handler :
  keeps_stack m → (∀ e, keeps_stack (handler e)) → keeps_stack (try_except m handler).
Proof.
  intros Hm Hh ctx below. destruct (Hm ctx below) as [ctx1 E].
  unfold try_except. destruct (m (ctx :: below)) as [[a|e] st1]; simpl in E; subst st1.
  - by exists ctx1.
  - apply Hh.
Qed.

Create HintDb keeps discriminated.
#[local] Hint Resolve keeps_ret keeps_raise keeps_lift_result keeps_top_ctx
  keeps_set_top : keeps.

Ltac keeps_step :=
  first [ apply keeps_bind; [|intros ?] | apply keeps_try_except; [|intros ?] ];
  auto with keeps.

Lemma keeps_match_request self : keeps_stack (match_request self).
Proof. unfold match_request. repeat keeps_step. Qed.

Lemma keeps_dispatch_except self e :
  callbacks_keep_stack self → keeps_stack (dispatch_except self e).
Proof.
  intros Hk. pose proof (handlers_keep _ Hk) as Hh.
  unfold dispatch_except. destruct e as [code d | cls msg | cls msg].
  - destruct (error_handlers self !! code) as [h|] eqn:E; auto with keeps.
    by apply (Hh _ _ E).
  - destruct (error_handlers self !! 500) as [h|] eqn:E; auto with keeps.
    destruct (debug self); auto with keeps. by apply (Hh _ _ E).
  - auto with keeps.
Qed.

Lemma keeps_dispatch_request self :
  callbacks_keep_stack self → keeps_stack (dispatch_request self).
Proof.
  intros Hk. unfold dispatch_request. apply keeps_try_except.
  - apply keeps_bind; [apply keeps_match_request|]. intros rv.
    destruct (view_functions self !! rv.1) as [f|] eqn:E; auto with keeps.
    by apply (views_keep _ Hk _ _ E).
  - intros e. by apply keeps_dispatch_except.
Qed.

Lemma keeps_make_response self rv : keeps_stack (make_response self rv).
Proof.
  unfold make_response.
  destruct (isinstance_response rv); auto with keeps.
  destruct (isinstance_basestring rv); auto with keeps.
  destruct (isinstance_tuple rv); auto with keeps.
Qed.

Lemma keeps_preprocess_loop (funcs : list (M Response (value Response))) :
  Forall keeps_stack funcs → keeps_stack (preprocess_loop funcs).
Proof.
  induction 1 as [|f funcs Hf _ IH]; simpl; auto with keeps.
  apply keeps_bind; [done|]. intros rv. destruct (is_None rv); auto with keeps.
Qed.

Lemma keeps_after_request_loop (funcs : list (Response → M Response Response)) response :
  Forall (λ h, ∀ r, keeps_stack (h r)) funcs →
  keeps_stack (after_request_loop funcs response).
Proof.
  intros Hall. revert response.
  induction Hall as [|h funcs Hh _ IH]; intros response; simpl; auto with keeps.
  apply keeps_bind; [apply Hh | apply IH].
Qed.

Lemma keeps_process_response self response :
  callbacks_keep_stack self → keeps_stack (process_response self response).
Proof.
  intros Hk. unfold process_response. apply keeps_bind; [apply keeps_top_ctx|].
  intros ctx. apply keeps_after_request_loop, (after_keep _ Hk).
Qed.

Lemma keeps_wsgi_app_body self :
  callbacks_keep_stack self → keeps_stack (wsgi_app_body self).
Proof.
  intros Hk. unfold wsgi_app_body.
  apply keeps_bind; [apply keeps_preprocess_loop, (before_keep _ Hk)|]. intros rv.
  apply keeps_bind.
  { destruct (is_None rv); [by apply keeps_dispatch_request | apply keeps_ret]. }
  intros rv'. apply keeps_bind; [apply keeps_make_response|].
  intros r. by apply keeps_process_response.
Qed.

(** C5.  With callbacks that keep the context stack, a pipeline
    invocation that returns leaves the stack as it found it (the context
    pushed at entry has been popped); so does one that ends with an
    exception when [debug] is false; when [debug] is true and an
    exception propagates, the context is still on the stack. *)
Theorem context_popped_unless_debug_failure self env st :
  callbacks_keep_stack self →
  match wsgi_app self env st with
  | (Return _, st') => st' = st
  | (Raise _, st') => if debug self then ∃ ctx', st' = ctx' :: st else st' = st
  end.
Proof.
  intros Hk. rewrite wsgi_app_unfold.
  destruct (keeps_wsgi_app_body self Hk (request_context self env) st) as [ctx' E].
  destruct (wsgi_app_body self (request_context self env :: st)) as [[r|e] st'];
    simpl in E; subst st'; unfold RequestContext__exit__; simpl.
  - done.
  - destruct (debug self); simpl; [by exists ctx' | done].
Qed.

(** ** Hooks around dispatch *)

Lemma preprocess_loop_skip (hs1 hs : list (M Response (value Response))) st1 st2 :
  all_return_None hs1 st1 st2 →
  preprocess_loop (hs1 ++ hs) st1 = preprocess_loop hs st2.
Proof.
  induction 1 as [|f fs st st' st'' Hf _ IH]; simpl; [done|].
  erewrite bind_Return by exact Hf. simpl. exact IH.
Qed.

Lemma respond_indep self self' rv st :
  after_request_funcs self' = after_request_funcs self →
  session_cookie_name self' = session_cookie_name self →
  respond self' rv st = respond self rv st.
Proof.
  intros Ha Hn. unfold respond, process_response, save_session, make_response.
  by rewrite Ha, Hn.
Qed.

(** C6.  Before-request hooks run in registration order.  When the hooks
    registered before [h] all return [None] and [h] returns a value that
    is not [None], that value is the result of preprocessing and the
    pipeline goes on with it alone: it is coerced by [make_response],
    post-processed and returned.  The hooks registered after [h], the URL
    map, the view functions and the error handlers have no part in the
    outcome.  When every hook returns [None], which includes the
    application without hooks, preprocessing returns [None] and the
    pipeline goes on with dispatch. *)
Theorem before_request_short_circuit self :
  (∀ hs1 h hs2 st1 st2 st3 v,
     before_request_funcs self = hs1 ++ h :: hs2 →
     all_return_None hs1 st1 st2 →
     h st2 = (Return v, st3) →
     is_None v = false →
     preprocess_request self st1 = (Return v, st3) ∧
     wsgi_app_body self st1 = respond self v st3 ∧
     (∀ env below, st1 = request_context self env :: below →
        wsgi_app self env below =
          let (r, st4) := respond self v st3 in
          (r, RequestContext__exit__ self (is_Raise r) st4)) ∧
     (∀ self' hs2',
        before_request_funcs self' = hs1 ++ h :: hs2' →
        after_request_funcs self' = after_request_funcs self →
        session_cookie_name self' = session_cookie_name self →
        wsgi_app_body self' st1 = wsgi_app_body self st1)) ∧
  (∀ st st',
     all_return_None (before_request_funcs self) st st' →
     preprocess_request self st = (Return VNone, st') ∧
     wsgi_app_body self st = bind (dispatch_request self) (respond self) st' ∧
     (∀ env below, st = request_context self env :: below →
        wsgi_app self env below =
          let (r, st4) := bind (dispatch_request self) (respond self) st' in
          (r, RequestContext__exit__ self (is_Raise r) st4))) ∧
  (∀ f, before_request_funcs (before_request f self) = before_request_funcs self ++ [f]).
Proof.
  split; [|split; [|done]].
  - intros hs1 h hs2 st1 st2 st3 v Hfuncs Hnone Hh Hv.
    assert (∀ self' hs2', before_request_funcs self' = hs1 ++ h :: hs2' →
              preprocess_request self' st1 = (Return v, st3)) as Hpre.
    { intros self' hs2' E. unfold preprocess_request. rewrite E.
      erewrite preprocess_loop_skip by exact Hnone. simpl.
      erewrite bind_Return by exact Hh. by rewrite Hv. }
    pose proof (Hpre self hs2 Hfuncs) as Hp.
    pose proof (wsgi_app_body_short_circuit self st1 st3 v Hp Hv) as Hbody.
    split; [exact Hp|]. split; [exact Hbody|]. split.
    + intros env below ->. rewrite wsgi_app_unfold. by rewrite Hbody.
    + intros self' hs2' E Ha Hn. rewrite Hbody.
      rewrite (wsgi_app_body_short_circuit self' st1 st3 v (Hpre self' hs2' E) Hv).
      by apply respond_indep.
  - intros st st' Hall.
    assert (preprocess_request self st = (Return VNone, st')) as Hp'.
    { unfold preprocess_request.
      rewrite <- (app_nil_r (before_request_funcs self)).
      by erewrite preprocess_loop_skip by exact Hall. }
    pose proof (wsgi_app_body_dispatch self st st' Hp') as Hbody.
    split; [exact Hp'|]. split; [exact Hbody|].
    intros env below ->. rewrite wsgi_app_unfold. by rewrite Hbody.
Qed.

Lemma after_request_loop_bind (hooks : list (Response → M Response Response))
    (m : M Response Response) st :
  bind m (after_request_loop hooks) st = foldl (λ acc h, bind acc h) m hooks st.
Proof.
  revert m st. induction hooks as [|h hooks IH]; intros m st; simpl.
  - unfold bind, ret. by destruct (m st) as [[r|e] st'].
  - rewrite <- IH. unfold bind. by destruct (m st) as [[r|e] st'].
Qed.

(** C7.  Post-processing first saves the session of the top context on
    the response, and only when that session is not [None]; then the
    after-request hooks run in registration order, each applied to the
    response the previous one returned.  With hooks [A] then [B] the
    result is [B (A r)], [r] being the response after the session step. *)
Theorem process_response_order self response ctx below :
  process_response self response (ctx :: below) =
    after_request_loop (after_request_funcs self)
      (save_session self (session ctx) response) (ctx :: below) ∧
  (session ctx = None → save_session self (session ctx) response = response) ∧
  (∀ s, session ctx = Some s →
     save_session self (session ctx) response =
       save_cookie s response (session_cookie_name self)) ∧
  (∀ hooks r st,
     after_request_loop hooks r st = foldl (λ acc h, bind acc h) (ret r) hooks st) ∧
  (∀ (A B : Response → M Response Response) ra sta rb stb,
     after_request_funcs self = [A; B] →
     A (save_session self (session ctx) response) (ctx :: below) = (Return ra, sta) →
     B ra sta = (Return rb, stb) →
     process_response self response (ctx :: below) = (Return rb, stb)) ∧
  (∀ a b : Response → Response,
     after_request_funcs self = [λ r, ret (a r); λ r, ret (b r)] →
     process_response self response (ctx :: below) =
       (Return (b (a (save_session self (session ctx) response))), ctx :: below)) ∧
  (∀ f, after_request_funcs (after_request f self) = after_request_funcs self ++ [f]).
Proof.
  assert (process_response self response (ctx :: below) =
    after_request_loop (after_request_funcs self)
      (save_session self (session ctx) response) (ctx :: below)) as Hpr.
  { unfold process_response, bind, top_ctx; simpl. by destruct (session ctx). }
  split; [exact Hpr|]. repeat split.
  - by intros ->.
  - by intros s ->.
  - intros hooks r st. rewrite <- after_request_loop_bind. done.
  - intros A B ra sta rb stb E HA HB. rewrite Hpr, E. simpl.
    erewrite bind_Return by exact HA. by erewrite bind_Return by exact HB.
  - intros a b E. by rewrite Hpr, E.
Qed.

(** C8.  [make_response] tries, in this order: a response object is
    returned as it is; else a string is passed alone to the response
    constructor; else the items of a tuple are passed to the constructor
    as its positional arguments; else the value goes through
    [force_type] with the environment of the current request, and the
    coercion fails exactly when [force_type] does. *)
Theorem make_response_precedence self rv ctx below :
  (∀ r, isinstance_response rv = Some r →
     make_response self rv (ctx :: below) = (Return r, ctx :: below)) ∧
  (isinstance_response rv = None → isinstance_basestring rv = true →
     make_response self rv (ctx :: below) = (Response__init__ [rv], ctx :: below)) ∧
  (∀ items, isinstance_response rv = None → isinstance_basestring rv = false →
     isinstance_tuple rv = Some items →
     make_response self rv (ctx :: below) = (Response__init__ items, ctx :: below)) ∧
  (isinstance_response rv = None → isinstance_basestring rv = false →
     isinstance_tuple rv = None →
     make_response self rv (ctx :: below) =
       (Response_force_type rv (environ (request ctx)), ctx :: below)) ∧
  (∀ r, rv = VResponse r → isinstance_response rv = Some r) ∧
  (∀ s, rv = VStr s →
     isinstance_response rv = None ∧ isinstance_basestring rv = true) ∧
  (∀ items, rv = VTuple items →
     isinstance_response rv = None ∧ isinstance_basestring rv = false ∧
     isinstance_tuple rv = Some items).
Proof.
  unfold make_response. repeat split.
  - by intros r ->.
  - by intros -> ->.
  - by intros items -> -> ->.
  - by intros -> -> ->.
  - by intros r ->.
  - by subst.
  - by subst.
  - by subst.
  - by subst.
  - by subst.
Qed.

(** ** Flash messages *)

Lemma get_flashed_messages_cached ctx below :
  is_None (flashes ctx) = false →
  get_flashed_messages (ctx :: below) = (Return (flashes ctx), ctx :: below).
Proof.
  intros Hc. unfold get_flashed_messages, bind, top_ctx; simpl. by rewrite Hc.
Qed.

Lemma get_flashed_messages_first ctx below s :
  session ctx = Some s →
  flashes ctx = VNone →
  get_flashed_messages (ctx :: below) =
    (Return (session_flashes s),
     set_flashes (session_flashes s) (set_session (delete "_flashes" s) ctx) :: below).
Proof.
  intros Hs Hf. unfold get_flashed_messages, bind, top_ctx; simpl.
  by rewrite Hf, Hs.
Qed.

Lemma flash_appends ctx below s old message :
  session ctx = Some s →
  session_flashes s = VList old →
  flash message (ctx :: below) =
    (Return VNone,
     set_session (<["_flashes" := VList (old ++ [message])]> s) ctx :: below).
Proof.
  intros Hs Hold. unfold flash, bind, top_ctx; simpl. by rewrite Hs, Hold.
Qed.

Lemma run_call_cached cached ctx below (c : flash_call Response) :
  flash_cached cached ctx →
  ∃ ctx', run_call c (ctx :: below) = (Return (cached_answer cached c), ctx' :: below)
          ∧ flash_cached cached ctx'.
Proof.
  intros (Hf & Hn & s & old & Hs & Hold). destruct c as [message|]; simpl.
  - eexists. split; [by eapply flash_appends|].
    split; [done|]. split; [done|]. eexists _, _. split; [done|].
    unfold session_flashes. by rewrite lookup_insert_eq.
  - exists ctx. split; [|by repeat (split || eexists)].
    rewrite <- Hf. apply get_flashed_messages_cached. by rewrite Hf.
Qed.

Lemma run_calls_cached cached (calls : list (flash_call Response)) ctx below :
  flash_cached cached ctx →
  ∃ ctx', run_calls calls (ctx :: below) =
            (Return (cached_answer cached <$> calls), ctx' :: below)
          ∧ flash_cached cached ctx'.
Proof.
  revert ctx. induction calls as [|c calls IH]; intros ctx Hc; simpl.
  - by exists ctx.
  - destruct (run_call_cached cached ctx below c Hc) as (ctx1 & E1 & Hc1).
    destruct (IH ctx1 Hc1) as (ctx2 & E2 & Hc2).
    exists ctx2. split; [|done].
    erewrite bind_Return by exact E1. by erewrite bind_Return by exact E2.
Qed.

Lemma run_calls_get_only cached n ctx below :
  flashes ctx = cached → is_None cached = false →
  run_calls (replicate n call_get_flashed_messages) (ctx :: below) =
    (Return (replicate n cached), ctx :: below).
Proof.
  intros Hf Hn. induction n as [|n IH]; simpl; [done|].
  erewrite bind_Return
    by (apply get_flashed_messages_cached; by rewrite Hf).
  erewrite bind_Return by exact IH. by rewrite Hf.
Qed.

(** C9.  In a context with a session and an empty cache, the first
    [get_flashed_messages()] returns the flash sequence of the session,
    removes the reserved key from the session and stores the sequence on
    the context; any number of further calls return that same sequence
    and leave context and session as they are. *)
Theorem get_flashed_messages_once ctx below s msgs :
  session ctx = Some s →
  flashes ctx = VNone →
  session_flashes s = VList msgs →
  let ctx1 := set_flashes (VList msgs) (set_session (delete "_flashes" s) ctx) in
  get_flashed_messages (ctx :: below) = (Return (VList msgs), ctx1 :: below) ∧
  session ctx1 = Some (delete "_flashes" s) ∧
  delete "_flashes" s !! "_flashes" = None ∧
  flashes ctx1 = VList msgs ∧
  ∀ n, run_calls (replicate n call_get_flashed_messages) (ctx1 :: below) =
         (Return (replicate n (VList msgs)), ctx1 :: below).
Proof.
  intros Hs Hf Hm ctx1. split; [|split; [|split; [|split]]].
  - subst ctx1. rewrite <- Hm. by apply get_flashed_messages_first.
  - done.
  - apply lookup_delete_eq.
  - done.
  - intros n. by apply run_calls_get_only.
Qed.

(** C10.  In a context whose session has no entry under the reserved
    key, the first [get_flashed_messages()] returns the empty list
    without failing and stores it on the context; whatever calls to
    [flash] and [get_flashed_messages] follow in that context, none
    fails and every [get_flashed_messages()] returns the empty list,
    while a [flash] still appends its message to the session. *)
Theorem get_flashed_messages_empty_cached ctx below s :
  session ctx = Some s →
  flashes ctx = VNone →
  s !! "_flashes" = None →
  let ctx1 := set_flashes (VList []) (set_session s ctx) in
  get_flashed_messages (ctx :: below) = (Return (VList []), ctx1 :: below) ∧
  flashes ctx1 = VList [] ∧
  (∀ message,
     flash message (ctx1 :: below) =
       (Return VNone, set_session (<["_flashes" := VList [message]]> s) ctx1 :: below)) ∧
  ∀ calls : list (flash_call Response),
    ∃ ctx2, run_calls calls (ctx1 :: below) =
              (Return (cached_answer (VList []) <$> calls), ctx2 :: below)
            ∧ flashes ctx2 = VList [].
Proof.
  intros Hs Hf Hk ctx1.
  assert (session_flashes s = VList []) as Hempty.
  { unfold session_flashes. by rewrite Hk. }
  split; [|split; [|split]].
  - rewrite (get_flashed_messages_first ctx below s Hs Hf), Hempty.
    by rewrite delete_id.
  - done.
  - intros message. by apply (flash_appends ctx1 below s []).
  - intros calls.
    destruct (run_calls_cached (VList []) calls ctx1 below) as (ctx2 & E & Hc2 & _).
    { split; [done|]. split; [done|]. by exists s, []. }
    by exists ctx2.
Qed.

(** ** Template context *)

Lemma update_context_loop_collect (funcs : list (M Response (gmap string (value Response))))
    context st :
  update_context_loop funcs context st =
    match collect_contexts funcs st with
    | (Return ds, st') => (Return (merge_contexts context ds), st')
    | (Raise e, st') => (Raise e, st')
    end.
Proof.
  revert context st. induction funcs as [|f funcs IH]; intros context st; simpl; [done|].
  unfold bind. destruct (f st) as [[d|e] st1]; [|done].
  rewrite IH. unfold ret.
  by destruct (collect_contexts funcs st1) as [[ds|e] st2].
Qed.

Lemma lookup_processors_from (k : string) (ds : list (gmap string (value Response)))
    (acc : option (value Response)) :
  foldl (λ a d, match d !! k with Some v => Some v | None => a end) acc ds =
    match lookup_processors k ds with
    | Some v => Some v
    | None => acc
    end.
Proof.
  unfold lookup_processors. revert acc.
  induction ds as [|d ds IH]; intros acc; simpl; [done|].
  rewrite IH. rewrite (IH (match d !! k with Some v => Some v | None => None end)).
  destruct (foldl _ None ds); [done|]. by destruct (d !! k).
Qed.

Lemma merge_contexts_lookup (context : gmap string (value Response)) ds k :
  merge_contexts context ds !! k =
    match lookup_processors k ds with
    | Some v => Some v
    | None => context !! k
    end.
Proof.
  rewrite <- lookup_processors_from. unfold merge_contexts.
  revert context. induction ds as [|d ds IH]; intros context; simpl; [done|].
  rewrite IH. f_equal. rewrite lookup_union.
  destruct (d !! k), (context !! k); reflexivity.
Qed.

(** C2 (as amended).  The mapping handed to the template engine is the
    explicit context updated with the mapping of each context processor
    in registration order: on a key collision a later processor
    overrides an earlier one, and every processor overrides the explicit
    context, which only supplies the keys no processor returns. *)
Theorem template_context_merge self template_name context ctx below :
  update_template_context self context (ctx :: below) =
    match collect_contexts (template_context_processors self) (ctx :: below) with
    | (Return ds, st') => (Return (merge_contexts context ds), st')
    | (Raise e, st') => (Raise e, st')
    end ∧
  (∀ ds k,
     merge_contexts context ds !! k =
       match lookup_processors k ds with
       | Some v => Some v
       | None => context !! k
       end) ∧
  (∀ ds1 d ds2 k v,
     d !! k = Some v → Forall (λ d', d' !! k = None) ds2 →
     lookup_processors k (ds1 ++ d :: ds2) = Some v) ∧
  render_template self template_name context (ctx :: below) =
    bind (update_template_context self context) (Template_render template_name)
      (ctx :: below).
Proof.
  split; [apply update_context_loop_collect|].
  split; [intros ds k; apply merge_contexts_lookup|].
  split; [|done].
  intros ds1 d ds2 k v Hd Hnone. unfold lookup_processors.
  rewrite foldl_app. simpl. rewrite Hd.
  induction Hnone as [|d' ds2 Hd' _ IH]; simpl; [done|]. by rewrite Hd'.
Qed.

(** ** More on the flash helpers *)

Lemma run_calls_app (calls1 calls2 : list (flash_call Response)) st :
  run_calls (calls1 ++ calls2) st =
    match run_calls calls1 st with
    | (Return vs1, st1) =>
        match run_calls calls2 st1 with
        | (Return vs2, st2) => (Return (vs1 ++ vs2), st2)
        | (Raise e, st2) => (Raise e, st2)
        end
    | (Raise e, st1) => (Raise e, st1)
    end.
Proof.
  revert st. induction calls1 as [|c calls1 IH]; intros st; simpl.
  - unfold ret. by destruct (run_calls calls2 st) as [[vs|e] st'].
  - unfold bind. destruct (run_call c st) as [[v|e] st1]; [|done].
    rewrite IH. destruct (run_calls calls1 st1) as [[vs1|e] st2]; [|done].
    unfold ret; simpl. by destruct (run_calls calls2 st2) as [[vs2|e] st3].
Qed.

Lemma flash_all ctx below s old msgs :
  session ctx = Some s →
  session_flashes s = VList old →
  ∃ ctx' s',
    run_calls (call_flash <$> msgs) (ctx :: below) =
      (Return (replicate (length msgs) VNone), ctx' :: below) ∧
    session ctx' = Some s' ∧
    session_flashes s' = VList (old ++ msgs) ∧
    delete "_flashes" s' = delete "_flashes" s ∧
    flashes ctx' = flashes ctx ∧
    same_request ctx ctx'.
Proof.
  revert ctx s old. induction msgs as [|m msgs IH]; intros ctx s old Hs Hold; simpl.
  - exists ctx, s. rewrite app_nil_r. by repeat split.
  - destruct (IH (set_session (<["_flashes" := VList (old ++ [m])]> s) ctx)
               (<["_flashes" := VList (old ++ [m])]> s) (old ++ [m]))
      as (ctx' & s' & Hrun & Hs' & Hfl & Hdel & Hcache & Hsame).
    { done. }
    { unfold session_flashes. by rewrite lookup_insert_eq. }
    exists ctx', s'.
    erewrite bind_Return by (by eapply flash_appends).
    erewrite bind_Return by exact Hrun.
    split; [done|]. split; [done|].
    split; [by rewrite Hfl, <- app_assoc|].
    split; [by rewrite Hdel, delete_insert_eq|].
    split; [done|]. exact Hsame.
Qed.

(** X1.  Messages flashed one after the other are appended to the
    sequence the session already holds, and the first
    [get_flashed_messages()] that follows returns the whole sequence in
    flashing order, removes the reserved key and caches the sequence. *)
Theorem flash_then_get_flashed_messages ctx below s old msgs :
  session ctx = Some s →
  flashes ctx = VNone →
  session_flashes s = VList old →
  run_calls ((call_flash <$> msgs) ++ [call_get_flashed_messages]) (ctx :: below) =
    (Return (replicate (length msgs) VNone ++ [VList (old ++ msgs)]),
     set_flashes (VList (old ++ msgs)) (set_session (delete "_flashes" s) ctx) :: below).
Proof.
  intros Hs Hf Hold.
  destruct (flash_all ctx below s old msgs Hs Hold)
    as (ctx' & s' & Hrun & Hs' & Hfl & Hdel & Hcache & Hu & Hr & Hg).
  rewrite run_calls_app, Hrun. simpl.
  erewrite bind_Return
    by (apply get_flashed_messages_first; [exact Hs' | by rewrite Hcache]).
  unfold bind, ret. rewrite Hfl, Hdel.
  unfold set_flashes, set_session; simpl. by rewrite Hu, Hr, Hg.
Qed.

(** X2.  The failures of the flash helpers.  With no active context both
    raise; with a null session [flash] raises, and so does
    [get_flashed_messages] unless the cache is already filled; [flash]
    raises when the value stored under the reserved key is not a list.
    In every case the context stack is left as it was. *)
Theorem flash_failures message :
  flash (Response:=Response) message [] = (Raise (AttributeError "top"), []) ∧
  get_flashed_messages (Response:=Response) [] = (Raise (AttributeError "top"), []) ∧
  (∀ ctx below, session ctx = None →
     flash message (ctx :: below) = (Raise (AttributeError "get"), ctx :: below) ∧
     (flashes ctx = VNone →
        get_flashed_messages (ctx :: below) = (Raise (AttributeError "pop"), ctx :: below)) ∧
     (is_None (flashes ctx) = false →
        get_flashed_messages (ctx :: below) = (Return (flashes ctx), ctx :: below))) ∧
  (∀ ctx below s, session ctx = Some s →
     (∀ old, session_flashes s ≠ VList old) →
     flash message (ctx :: below) = (Raise (TypeError "+"), ctx :: below)).
Proof.
  split; [done|]. split; [done|]. split.
  - intros ctx below Hs. split; [|split].
    + unfold flash, bind, top_ctx; simpl. by rewrite Hs.
    + intros Hf. unfold get_flashed_messages, bind, top_ctx; simpl. by rewrite Hf, Hs.
    + apply get_flashed_messages_cached.
  - intros ctx below s Hs Hnl. unfold flash, bind, top_ctx; simpl. rewrite Hs.
    destruct (session_flashes s) eqn:E; try done. by destruct (Hnl items).
Qed.

Lemma same_request_refl ctx : same_request ctx ctx.
Proof. by repeat split. Qed.

Lemma same_request_trans ctx1 ctx2 ctx3 :
  same_request ctx1 ctx2 → same_request ctx2 ctx3 → same_request ctx1 ctx3.
Proof. intros (? & ? & ?) (? & ? & ?). repeat split; congruence. Qed.

Lemma same_session_data_refl (o : option (gmap string (value Response))) :
  same_session_data o o.
Proof. by destruct o. Qed.

Lemma same_session_data_trans (o1 o2 o3 : option (gmap string (value Response))) :
  same_session_data o1 o2 → same_session_data o2 o3 → same_session_data o1 o3.
Proof.
  destruct o1, o2, o3; simpl; try done.
  intros H12 H23 k Hk. by rewrite H23, H12.
Qed.

Lemma run_call_frame (c : flash_call Response) ctx below :
  ∃ ctx', snd (run_call c (ctx :: below)) = ctx' :: below ∧
          same_request ctx ctx' ∧
          same_session_data (session ctx) (session ctx').
Proof.
  assert (∃ ctx', ctx :: below = ctx' :: below ∧ same_request ctx ctx' ∧
                  same_session_data (session ctx) (session ctx')) as Hsame.
  { exists ctx. split; [done|]. split; [apply same_request_refl|].
    apply same_session_data_refl. }
  destruct c as [message|]; simpl.
  - unfold flash, bind, top_ctx; simpl.
    destruct (session ctx) as [s|] eqn:Hs; [|exact Hsame].
    destruct (session_flashes s) eqn:E; try exact Hsame.
    eexists. split; [reflexivity|]. split; [by repeat split|].
    simpl. intros k Hk. by rewrite lookup_insert_ne.
  - unfold get_flashed_messages, bind, top_ctx; simpl.
    destruct (is_None (flashes ctx)); [|exact Hsame].
    destruct (session ctx) as [s|] eqn:Hs; [|exact Hsame].
    eexists. split; [reflexivity|]. split; [by repeat split|].
    simpl. intros k Hk. by rewrite lookup_delete_ne.
Qed.

(** X3.  Whatever calls to [flash] and [get_flashed_messages] a request
    makes, and whether or not one of them fails, the contexts below the
    active one are untouched, and in the active context only the
    reserved key of the session and the flash cache can have changed:
    request, adapter, [g] and every other session key are as before. *)
Theorem flash_helpers_frame (calls : list (flash_call Response)) ctx below :
  ∃ ctx', snd (run_calls calls (ctx :: below)) = ctx' :: below ∧
          same_request ctx ctx' ∧
          same_session_data (session ctx) (session ctx').
Proof.
  revert ctx. induction calls as [|c calls IH]; intros ctx; simpl.
  - exists ctx. split; [done|]. split; [apply same_request_refl|].
    apply same_session_data_refl.
  - destruct (run_call_frame c ctx below) as (ctx1 & E1 & Hr1 & Hs1).
    unfold bind at 1. destruct (run_call c (ctx :: below)) as [[v|e] st1];
      simpl in E1; subst st1.
    + destruct (IH ctx1) as (ctx2 & E2 & Hr2 & Hs2).
      exists ctx2. split.
      * unfold bind, ret.
        destruct (run_calls calls (ctx1 :: below)) as [[vs|e] st2]; exact E2.
      * split; [by eapply same_request_trans | by eapply same_session_data_trans].
    + by exists ctx1.
Qed.

(** ** More on the pipeline *)

Lemma dispatch_request_try self st :
  dispatch_request self st = try_except (dispatch_try self) (dispatch_except self) st.
Proof. reflexivity. Qed.

Lemma dispatch_try_views self self' st :
  view_functions self' = view_functions self →
  dispatch_try self' st = dispatch_try self st.
Proof. intros Hv. unfold dispatch_try, match_request. by rewrite Hv. Qed.

(** X4.  When the before-request hooks all return [None], the request
    matches a rule and the view function of its endpoint returns, the
    value it returns is the result of dispatch and the pipeline answers
    with that value coerced and post-processed.  The view function runs
    on a context whose request carries the matched endpoint and
    arguments, and no error handler takes part: dispatch gives the same
    result on any application with the same view functions. *)
Theorem dispatch_success self env below0 ctx below ep args f rv st2 :
  preprocess_request self (request_context self env :: below0)
    = (Return VNone, ctx :: below) →
  MapAdapter_match (url_adapter ctx) = Return (ep, args) →
  view_functions self !! ep = Some f →
  f args (matched ep args ctx :: below) = (Return rv, st2) →
  dispatch_request self (ctx :: below) = (Return rv, st2) ∧
  endpoint (request (matched ep args ctx)) = Some ep ∧
  view_args (request (matched ep args ctx)) = Some args ∧
  wsgi_app self env below0 =
    (let (r, st3) := respond self rv st2 in
     (r, RequestContext__exit__ self (is_Raise r) st3)) ∧
  (∀ self', view_functions self' = view_functions self →
     dispatch_request self' (ctx :: below) = (Return rv, st2)).
Proof.
  intros Hp Hm Hv Hf.
  assert (dispatch_request self (ctx :: below) = (Return rv, st2)) as Hd.
  { erewrite dispatch_request_view by done. by apply try_except_Return. }
  split; [exact Hd|]. split; [done|]. split; [done|]. split.
  - rewrite wsgi_app_unfold. erewrite wsgi_app_body_dispatch by exact Hp.
    by erewrite bind_Return by exact Hd.
  - intros self' Hv'. erewrite dispatch_request_view; [|done|by rewrite Hv'].
    by apply try_except_Return.
Qed.

(** X5.  A failure raised by a before-request hook is outside the [try]
    of dispatch: whatever its kind and whatever error handlers are
    registered, it propagates out of the pipeline invocation; the hooks
    after it, routing, the view function and post-processing do not
    run. *)
Theorem before_request_failure self hs1 h hs2 env below st2 st3 e :
  before_request_funcs self = hs1 ++ h :: hs2 →
  all_return_None hs1 (request_context self env :: below) st2 →
  h st2 = (Raise e, st3) →
  preprocess_request self (request_context self env :: below) = (Raise e, st3) ∧
  wsgi_app self env below = (Raise e, RequestContext__exit__ self true st3).
Proof.
  intros Hfuncs Hnone Hh.
  assert (preprocess_request self (request_context self env :: below) = (Raise e, st3))
    as Hp.
  { unfold preprocess_request. rewrite Hfuncs.
    erewrite preprocess_loop_skip by exact Hnone. simpl.
    by erewrite bind_Raise by exact Hh. }
  split; [exact Hp|].
  rewrite wsgi_app_unfold. unfold wsgi_app_body.
  by erewrite bind_Raise by exact Hp.
Qed.

Lemma after_request_loop_app (hs1 hs2 : list (Response → M Response Response)) r st :
  after_request_loop (hs1 ++ hs2) r st =
    bind (after_request_loop hs1 r) (after_request_loop hs2) st.
Proof.
  revert r st. induction hs1 as [|h hs1 IH]; intros r st; simpl.
  - reflexivity.
  - unfold bind at 1 2 3. destruct (h r st) as [[r'|e] st']; [|done].
    rewrite IH. reflexivity.
Qed.

Lemma make_response_state self rv st : snd (make_response self rv st) = st.
Proof.
  unfold make_response.
  destruct (isinstance_response rv); [done|].
  destruct (isinstance_basestring rv); [done|].
  destruct (isinstance_tuple rv); [done|].
  unfold bind, top_ctx, lift_result. by destruct (top st).
Qed.

Lemma process_response_top self response ctx below :
  process_response self response (ctx :: below) =
    after_request_loop (after_request_funcs self)
      (save_session self (session ctx) response) (ctx :: below).
Proof. unfold process_response, bind, top_ctx; simpl. by destruct (session ctx). Qed.

(** X6.  Failures after dispatch are not recovered either.  A value that
    [force_type] cannot coerce makes the pipeline step fail before the
    session is saved and before any after-request hook runs; and when an
    after-request hook raises, the hooks registered after it do not run
    and its failure is the outcome of post-processing. *)
Theorem response_failure self rv response ctx below :
  (∀ e, isinstance_response rv = None → isinstance_basestring rv = false →
     isinstance_tuple rv = None →
     Response_force_type rv (environ (request ctx)) = Raise e →
     respond self rv (ctx :: below) = (Raise e, ctx :: below)) ∧
  (∀ hs1 h hs2 r1 st1 e st2,
     after_request_funcs self = hs1 ++ h :: hs2 →
     after_request_loop hs1 (save_session self (session ctx) response) (ctx :: below)
       = (Return r1, st1) →
     h r1 st1 = (Raise e, st2) →
     process_response self response (ctx :: below) = (Raise e, st2)).
Proof.
  split.
  - intros e Hr Hs Ht Hforce. unfold respond, make_response.
    rewrite Hr, Hs, Ht. unfold bind, top_ctx, lift_result; simpl. by rewrite Hforce.
  - intros hs1 h hs2 r1 st1 e st2 Hfuncs Hloop Hh.
    rewrite process_response_top, Hfuncs, after_request_loop_app.
    erewrite bind_Return by exact Hloop. simpl.
    by erewrite bind_Raise by exact Hh.
Qed.

(** X7.  The debug flag matters to dispatch only for failures that are
    not HTTP-level: when the body of the [try] returns or raises an
    HTTP-level failure, dispatch gives the same outcome with the flag
    set either way. *)
Theorem debug_only_for_generic_failures self b st :
  (∀ cls msg, fst (dispatch_try self st) ≠ Raise (Exception cls msg)) →
  dispatch_request (set_debug b self) st = dispatch_request self st.
Proof.
  intros Hgen. rewrite !dispatch_request_try. unfold try_except.
  rewrite (dispatch_try_views self (set_debug b self) st eq_refl).
  destruct (dispatch_try self st) as [[rv|[code d|cls msg|cls msg]] st'] eqn:E;
    simpl in *.
  - done.
  - done.
  - by destruct (Hgen cls msg).
  - done.
Qed.

Lemma all_return_None_preprocess (funcs : list (M Response (value Response))) st st' :
  all_return_None funcs st st' → preprocess_loop funcs st = (Return VNone, st').
Proof.
  intros Hall. rewrite <- (app_nil_r funcs).
  by rewrite (preprocess_loop_skip funcs [] st st' Hall).
Qed.

(** X15.  [preprocess_request] returns [None] exactly when every
    before-request hook, run in registration order, returned [None]; so
    dispatch runs in exactly that case. *)
Theorem preprocess_request_None_iff self st st' :
  preprocess_request self st = (Return VNone, st') ↔
  all_return_None (before_request_funcs self) st st'.
Proof.
  unfold preprocess_request. split; [|apply all_return_None_preprocess].
  generalize (before_request_funcs self) as funcs. intros funcs. revert st.
  induction funcs as [|f funcs IH]; intros st; simpl.
  - unfold ret. intros [= <-]. constructor.
  - unfold bind. destruct (f st) as [[rv|e] st1] eqn:Ef; [|done].
    destruct rv; simpl; unfold ret; try done.
    intros Hrest. eapply arn_cons; [exact Ef | by apply IH].
Qed.

Lemma serve_keeps_stack self envs st :
  callbacks_keep_stack self →
  let (rs, st') := serve self envs st in
  if debug self
  then length st' = (length st + count_raised rs)%nat
  else st' = st.
Proof.
  intros Hk. revert st. induction envs as [|env envs IH]; intros st; simpl.
  - destruct (debug self); [lia | done].
  - rewrite wsgi_app_unfold.
    destruct (keeps_wsgi_app_body self Hk (request_context self env) st) as [ctx' E].
    destruct (wsgi_app_body self (request_context self env :: st)) as [[r|e] st1];
      simpl in E; subst st1; unfold RequestContext__exit__; simpl.
    + specialize (IH st). destruct (serve self envs st) as [rs st2].
      simpl. exact IH.
    + destruct (debug self); simpl.
      * specialize (IH (ctx' :: st)).
        destruct (serve self envs (ctx' :: st)) as [rs st2]. simpl in *. lia.
      * specialize (IH st). by destruct (serve self envs st) as [rs st2].
Qed.

(** X8.  Over any sequence of requests answered on one thread by an
    application whose callbacks keep the stack: with [debug] off the
    context stack is, after the last request, what it was before the
    first; with [debug] on it has grown by one context for each request
    that ended with an exception. *)
Theorem serve_stack self envs st :
  callbacks_keep_stack self →
  (debug self = false → snd (serve self envs st) = st) ∧
  (debug self = true →
     length (snd (serve self envs st)) =
       (length st + count_raised (fst (serve self envs st)))%nat).
Proof.
  intros Hk. pose proof (serve_keeps_stack self envs st Hk) as Hs.
  destruct (serve self envs st) as [rs st']. simpl.
  split; intros Hd; by rewrite Hd in Hs.
Qed.

(** ** Template context of the default processor *)

(** X9.  On an application whose only context processor is the default
    one, the template context is the explicit context with [request],
    [session] and [g] set from the active request context: an explicit
    entry under one of these three names is replaced, every other
    explicit entry is kept; [session] is [None] when the context has no
    session.  With no active context the call raises. *)
Theorem default_template_context self context ctx below :
  template_context_processors self = [_default_template_ctx_processor] →
  let injected : gmap string (value Response) :=
    <["request" := VContextAttr attr_request]>
      (<["session" := match session ctx with
                      | Some _ => VContextAttr attr_session
                      | None => VNone
                      end]>
      (<["g" := VContextAttr attr_g]> ∅)) in
  update_template_context self context (ctx :: below)
    = (Return (injected ∪ context), ctx :: below) ∧
  (injected ∪ context) !! "request" = Some (VContextAttr attr_request) ∧
  (injected ∪ context) !! "session" =
    Some (match session ctx with
          | Some _ => VContextAttr attr_session
          | None => VNone
          end) ∧
  (injected ∪ context) !! "g" = Some (VContextAttr attr_g) ∧
  (∀ k, k ≠ "request" → k ≠ "session" → k ≠ "g" →
     (injected ∪ context) !! k = context !! k) ∧
  update_template_context self context [] = (Raise (AttributeError "top"), []).
Proof.
  intros Hp injected. unfold update_template_context. rewrite Hp.
  split; [done|]. subst injected.
  split; [by erewrite lookup_union_Some_l by apply lookup_insert_eq|].
  split.
  { erewrite lookup_union_Some_l; [done|].
    rewrite lookup_insert_ne by done. apply lookup_insert_eq. }
  split.
  { erewrite lookup_union_Some_l; [done|].
    rewrite !lookup_insert_ne by done. apply lookup_insert_eq. }
  split; [|done].
  intros k Hr Hs Hg. apply lookup_union_r.
  by rewrite !lookup_insert_ne.
Qed.

(** ** Flash messages and the saved session *)

Lemma make_response_same_request self rv ctx ctx' below below' :
  request ctx' = request ctx →
  fst (make_response self rv (ctx' :: below')) = fst (make_response self rv (ctx :: below)).
Proof.
  intros Hr. unfold make_response.
  destruct (isinstance_response rv); [done|].
  destruct (isinstance_basestring rv); [done|].
  destruct (isinstance_tuple rv); [done|].
  unfold bind, top_ctx, lift_result; simpl. by rewrite Hr.
Qed.

Lemma respond_top self rv r ctx below :
  fst (make_response self rv (ctx :: below)) = Return r →
  respond self rv (ctx :: below) =
    after_request_loop (after_request_funcs self)
      (save_session self (session ctx) r) (ctx :: below).
Proof.
  intros Hm. unfold respond.
  pose proof (make_response_state self rv (ctx :: below)) as Hst.
  destruct (make_response self rv (ctx :: below)) as [res st'] eqn:E.
  simpl in *. subst res st'.
  erewrite bind_Return by exact E. apply process_response_top.
Qed.

(** X10.  The session saved on the response is the session as the
    request left it.  After a [flash] the saved session holds the
    message at the end of the flash sequence; after a first
    [get_flashed_messages()] the saved session no longer has the
    reserved key, so messages that were read are not kept for the next
    request. *)
Theorem saved_session_follows_flash self ctx below s old message rv r :
  session ctx = Some s →
  session_flashes s = VList old →
  fst (make_response self rv (ctx :: below)) = Return r →
  bind (flash message) (λ _, respond self rv) (ctx :: below) =
    after_request_loop (after_request_funcs self)
      (save_cookie (<["_flashes" := VList (old ++ [message])]> s) r
         (session_cookie_name self))
      (set_session (<["_flashes" := VList (old ++ [message])]> s) ctx :: below) ∧
  (flashes ctx = VNone →
   bind get_flashed_messages (λ _, respond self rv) (ctx :: below) =
     after_request_loop (after_request_funcs self)
       (save_cookie (delete "_flashes" s) r (session_cookie_name self))
       (set_flashes (VList old) (set_session (delete "_flashes" s) ctx) :: below)).
Proof.
  intros Hs Hold Hm. split.
  - erewrite bind_Return by (by eapply flash_appends).
    erewrite respond_top; [done|].
    by erewrite make_response_same_request.
  - intros Hf.
    erewrite bind_Return by (by apply get_flashed_messages_first).
    rewrite Hold. erewrite respond_top; [done|].
    by erewrite make_response_same_request.
Qed.

(** X14.  Without a secret key the request context is created with a
    null session: [flash] fails in it, and post-processing hands the
    response to the after-request hooks as it is.  With a secret key the
    session is the one the cookie codec loads for the request. *)
Theorem session_needs_secret_key self env below :
  (secret_key self = None →
     session (request_context self env) = None ∧
     (∀ message,
        flash message (request_context self env :: below) =
          (Raise (AttributeError "get"), request_context self env :: below)) ∧
     (∀ response,
        process_response self response (request_context self env :: below) =
          after_request_loop (after_request_funcs self) response
            (request_context self env :: below))) ∧
  (∀ key, secret_key self = Some key →
     session (request_context self env) =
       Some (load_cookie (Request__init__ env) (session_cookie_name self) key)).
Proof.
  split.
  - intros Hk.
    assert (session (request_context self env) = None) as Hs.
    { simpl. unfold open_session. by rewrite Hk. }
    split; [exact Hs|]. split.
    + intros message. unfold flash, bind, top_ctx. simpl top.
      cbv beta iota. by rewrite Hs.
    + intros response. rewrite process_response_top. by rewrite Hs.
  - intros key Hk. simpl. unfold open_session. by rewrite Hk.
Qed.

(** ** Registration and routing *)

Lemma match_rules_skip rules1 rules2 path method seen :
  Forall (λ r, rule_matches_path path r = false) rules1 →
  match_rules (rules1 ++ rules2) path method seen = match_rules rules2 path method seen.
Proof.
  induction 1 as [|r rules1 Hr _ IH]; simpl; [done|].
  unfold rule_matches_path in Hr.
  destruct (rule_build_only r); simpl in Hr; [exact IH|].
  destruct (Rule_match (rule_string r) path) as [rv|]; [|exact IH].
  by rewrite bool_decide_eq_true_2 in Hr by eauto.
Qed.

(** X11.  A view function registered with [route] is the one dispatch
    calls for a request that no rule registered earlier matches, whose
    path matches the new rule and whose method is among the rule's
    methods ([GET] when none were given): it is called with the
    arguments captured from the path. *)
Theorem route_dispatches self rule name methods f env ctx below args :
  url_adapter ctx = bind_to_environ (url_map (route rule name methods f self)) env →
  Forall (λ r, rule_matches_path (PATH_INFO env) r = false) (url_map self) →
  Rule_match rule (PATH_INFO env) = Some args →
  REQUEST_METHOD env ∈ default ["GET"] methods →
  MapAdapter_match (url_adapter ctx) = Return (name, args) ∧
  dispatch_request (route rule name methods f self) (ctx :: below) =
    try_except (f args) (dispatch_except (route rule name methods f self))
      (matched name args ctx :: below).
Proof.
  intros Ha Hearlier Hrule Hmethod.
  assert (MapAdapter_match (url_adapter ctx) = Return (name, args)) as Hm.
  { rewrite Ha. unfold MapAdapter_match; simpl.
    rewrite match_rules_skip by done. simpl. rewrite Hrule.
    unfold method_allowed; simpl. by rewrite bool_decide_eq_true_2. }
  split; [exact Hm|].
  apply dispatch_request_view; [exact Hm|]. simpl. apply lookup_insert_eq.
Qed.

(** X12.  View functions are kept by name.  When a second function is
    registered with [route] under a name already in use, the rule of the
    first registration stays in the map but its requests are dispatched
    to the second function. *)
Theorem route_same_name_replaces self rule1 rule2 name methods1 methods2 f1 f2
    env ctx below args :
  let app := route rule2 name methods2 f2 (route rule1 name methods1 f1 self) in
  url_adapter ctx = bind_to_environ (url_map app) env →
  Forall (λ r, rule_matches_path (PATH_INFO env) r = false) (url_map self) →
  Rule_match rule1 (PATH_INFO env) = Some args →
  REQUEST_METHOD env ∈ default ["GET"] methods1 →
  view_functions app !! name = Some f2 ∧
  dispatch_request app (ctx :: below) =
    try_except (f2 args) (dispatch_except app) (matched name args ctx :: below).
Proof.
  intros app Ha Hearlier Hrule Hmethod.
  assert (view_functions app !! name = Some f2) as Hv by apply lookup_insert_eq.
  split; [exact Hv|].
  apply dispatch_request_view; [|exact Hv].
  rewrite Ha. unfold MapAdapter_match; simpl. rewrite <- app_assoc.
  rewrite match_rules_skip by done. simpl. rewrite Hrule.
  unfold method_allowed; simpl. by rewrite bool_decide_eq_true_2.
Qed.


End Properties.

(** * Worked examples *)

Import Example.

(** C1, counterexample to the claim as stated.  The path [/orphan]
    matches a rule whose endpoint has no view function; with [debug]
    false and a handler registered for status 500, dispatch returns what
    that handler returns and the pipeline ends with a normal response:
    the failure did not propagate. *)
Lemma unregistered_endpoint_is_handled :
  MapAdapter_match (url_adapter orphan_ctx) = Return ("orphan", ∅) ∧
  view_functions orphan_app !! "orphan" = None ∧
  debug orphan_app = false ∧
  dispatch_request orphan_app [orphan_ctx] =
    (Return (VStr "handled"), [matched "orphan" ∅ orphan_ctx]) ∧
  wsgi_app orphan_app (get "/orphan") [] = (Return (text "handled"), []).
Proof. vm_compute. repeat split; reflexivity. Qed.

(** C1, the amended statement on the same application: the registered
    500 handler is applied to the [KeyError]. *)
Lemma dispatch_unregistered_endpoint_witness :
  dispatch_request orphan_app [orphan_ctx] =
    on_error (KeyError "orphan") [matched "orphan" ∅ orphan_ctx].
Proof.
  refine (proj2 (dispatch_unregistered_endpoint orphan_app orphan_ctx [] "orphan" ∅ _ _)
            on_error _ _); reflexivity.
Defined.

(** C3, counterexample to the claim as stated.  The view function of
    [leave_app] raises [SystemExit], which is not HTTP-level; [debug] is
    off and a handler is registered for status 500; the claim gives the
    handler's return value as the dispatch result, but the failure
    propagates out of dispatch and out of the pipeline invocation. *)
Lemma system_exit_is_not_handled :
  view_functions leave_app !! "leave" = Some leave ∧
  leave ∅ [matched "leave" ∅ leave_ctx] =
    (Raise (BaseException "SystemExit" "1"), [matched "leave" ∅ leave_ctx]) ∧
  is_HTTPException (BaseException "SystemExit" "1") = false ∧
  debug leave_app = false ∧
  error_handlers leave_app !! 500 = Some on_error ∧
  on_error (BaseException "SystemExit" "1") [matched "leave" ∅ leave_ctx] =
    (Return (VStr "handled"), [matched "leave" ∅ leave_ctx]) ∧
  dispatch_request leave_app [leave_ctx] =
    (Raise (BaseException "SystemExit" "1"), [matched "leave" ∅ leave_ctx]) ∧
  wsgi_app leave_app (get "/leave") [] = (Raise (BaseException "SystemExit" "1"), []).
Proof. repeat split; reflexivity. Qed.

(** C3, the amended statement: on [boom_app] the failure is an instance
    of [Exception] and the 500 handler answers; on [leave_app] it is not
    and it propagates. *)
Lemma dispatch_generic_failure_witness :
  dispatch_request boom_app [boom_ctx] =
    on_error (Exception "ValueError" "boom") [matched "boom" ∅ boom_ctx] ∧
  dispatch_request leave_app [leave_ctx] =
    (Raise (BaseException "SystemExit" "1"), [matched "leave" ∅ leave_ctx]).
Proof.
  split.
  - refine (proj2 (proj1 (dispatch_generic_failure boom_app (get "/boom") [] boom_ctx []
                            "boom" ∅ boom (Exception "ValueError" "boom")
                            [matched "boom" ∅ boom_ctx] _ _ _ _ _) _)
              on_error _ _); reflexivity.
  - refine (proj1 (proj2 (dispatch_generic_failure leave_app (get "/leave") [] leave_ctx []
                            "leave" ∅ leave (BaseException "SystemExit" "1")
                            [matched "leave" ∅ leave_ctx] _ _ _ _ _) _));
      reflexivity.
Defined.

(** C4 on [not_found_app]: no rule matches [/missing], routing raises
    [NotFound], and the handler registered for 404 answers. *)
Lemma dispatch_http_failure_witness :
  dispatch_request not_found_app [not_found_ctx] =
    (Return (VStr "nothing here"), [not_found_ctx]).
Proof.
  refine (proj1 (dispatch_http_failure not_found_app not_found_ctx [] 404 "Not Found"
                   [not_found_ctx] _) (λ _, ret (VStr "nothing here")) _).
  - left. split; reflexivity.
  - reflexivity.
Defined.

Lemma boom_debug_app_keeps_stack : callbacks_keep_stack boom_debug_app.
Proof.
  split; simpl.
  - constructor.
  - apply map_Forall_insert_2; [|apply map_Forall_empty].
    intros args ctx below. by exists ctx.
  - apply map_Forall_empty.
  - constructor.
Qed.

(** C5 on [boom_debug_app]: [debug] is true and the view function
    raises, so the context stays on the stack. *)
Lemma context_popped_unless_debug_failure_witness :
  match wsgi_app boom_debug_app (get "/boom") [] with
  | (Return _, st') => st' = []
  | (Raise _, st') =>
      if debug boom_debug_app then ∃ ctx', st' = [ctx'] else st' = []
  end.
Proof.
  apply (context_popped_unless_debug_failure boom_debug_app (get "/boom") []).
  exact boom_debug_app_keeps_stack.
Defined.

(** C6 on [closed_app]: the second hook answers, the third never runs,
    and the answer is coerced and post-processed; and on [hello_app],
    which has no hooks, the pipeline goes on with dispatch. *)
Lemma before_request_short_circuit_witness :
  preprocess_request closed_app [closed_ctx] = (Return (VStr "closed"), [closed_ctx]) ∧
  wsgi_app_body closed_app [closed_ctx] = respond closed_app (VStr "closed") [closed_ctx] ∧
  preprocess_request hello_app [hello_ctx] = (Return VNone, [hello_ctx]) ∧
  wsgi_app_body hello_app [hello_ctx] =
    bind (dispatch_request hello_app) (respond hello_app) [hello_ctx].
Proof.
  assert (all_return_None [quiet] [closed_ctx] [closed_ctx]) as Hquiet.
  { eapply arn_cons; [reflexivity | apply arn_nil]. }
  destruct (proj1 (before_request_short_circuit closed_app) [quiet] closed [never]
              [closed_ctx] [closed_ctx] [closed_ctx] (VStr "closed")
              eq_refl Hquiet eq_refl eq_refl) as (Hpre & Hbody & _).
  destruct (proj1 (proj2 (before_request_short_circuit hello_app)) [hello_ctx] [hello_ctx]
              (arn_nil [hello_ctx])) as (Hnone & Hdispatch & _).
  exact (conj Hpre (conj Hbody (conj Hnone Hdispatch))).
Defined.

(** C7 on [stamped_app]: hooks [A] then [B] give [B (A r)]. *)
Lemma process_response_order_witness :
  process_response stamped_app (text "page") [stamped_ctx] =
    (Return (stamp "B" (stamp "A" (text "page"))), [stamped_ctx]).
Proof.
  destruct (process_response_order stamped_app (text "page") stamped_ctx [])
    as (_ & _ & _ & _ & _ & Hpure & _).
  exact (Hpure (stamp "A") (stamp "B") eq_refl).
Defined.

(** C8 at a string and at a tuple. *)
Lemma make_response_precedence_witness :
  make_response stamped_app (VStr "hello") [stamped_ctx] =
    (Return (text "hello"), [stamped_ctx]) ∧
  make_response stamped_app (VTuple [VStr "gone"; VInt 410]) [stamped_ctx] =
    (Return {| data := "gone"; status_code := 410; headers := [] |}, [stamped_ctx]).
Proof.
  split.
  - exact (proj1 (proj2 (make_response_precedence stamped_app (VStr "hello")
                           stamped_ctx [])) eq_refl eq_refl).
  - exact (proj1 (proj2 (proj2 (make_response_precedence stamped_app
                                  (VTuple [VStr "gone"; VInt 410]) stamped_ctx [])))
             [VStr "gone"; VInt 410] eq_refl eq_refl eq_refl).
Defined.

(** C9 on a session that carries one flashed message. *)
Lemma get_flashed_messages_once_witness :
  get_flashed_messages [flashed_ctx] =
    (Return (VList [VStr "saved"]),
     [set_flashes (VList [VStr "saved"])
        (set_session (delete "_flashes" flashed_session) flashed_ctx)]) ∧
  run_calls (replicate 2 call_get_flashed_messages)
    [set_flashes (VList [VStr "saved"])
       (set_session (delete "_flashes" flashed_session) flashed_ctx)] =
    (Return [VList [VStr "saved"]; VList [VStr "saved"]],
     [set_flashes (VList [VStr "saved"])
        (set_session (delete "_flashes" flashed_session) flashed_ctx)]).
Proof.
  destruct (get_flashed_messages_once flashed_ctx [] flashed_session [VStr "saved"]
              eq_refl eq_refl eq_refl) as (Hfirst & _ & _ & _ & Hnext).
  exact (conj Hfirst (Hnext 2%nat)).
Defined.

(** C10 on a fresh session: a later [flash] does not change what
    [get_flashed_messages] returns in the same context. *)
Lemma get_flashed_messages_empty_cached_witness :
  get_flashed_messages [fresh_ctx] =
    (Return (VList []), [set_flashes (VList []) (set_session ∅ fresh_ctx)]) ∧
  ∃ ctx2,
    run_calls [call_flash (VStr "late"); call_get_flashed_messages]
      [set_flashes (VList []) (set_session ∅ fresh_ctx)] =
      (Return [VNone; VList []], [ctx2]) ∧ flashes ctx2 = VList [].
Proof.
  destruct (get_flashed_messages_empty_cached fresh_ctx [] ∅ eq_refl eq_refl eq_refl)
    as (Hfirst & _ & _ & Hcalls).
  exact (conj Hfirst (Hcalls [call_flash (VStr "late"); call_get_flashed_messages])).
Defined.

(** C2, counterexample to the claim as stated.  The explicit context and
    a context processor both give [user]; the mapping built by
    [update_template_context] holds the processor's value, where the
    merge the claim describes holds the explicit one. *)
Lemma template_context_explicit_overridden :
  collect_contexts (template_context_processors user_app) [user_ctx] =
    (Return user_mappings, [user_ctx]) ∧
  fst (update_template_context user_app explicit_context [user_ctx]) =
    Return (merge_contexts explicit_context user_mappings) ∧
  merge_contexts explicit_context user_mappings !! "user" = Some (VStr "processor") ∧
  spec_template_context user_mappings explicit_context !! "user" = Some (VStr "explicit").
Proof. vm_compute. repeat split; reflexivity. Qed.

(** C2, the amended statement on the same application. *)
Lemma template_context_merge_witness :
  merge_contexts explicit_context user_mappings !! "user" = Some (VStr "processor").
Proof.
  destruct (template_context_merge user_app "index.html" explicit_context user_ctx [])
    as (_ & Hlookup & _).
  rewrite Hlookup. reflexivity.
Defined.

(** X1 on a session that already carries one message. *)
Lemma flash_then_get_flashed_messages_witness :
  run_calls [call_flash (VStr "a"); call_flash (VStr "b"); call_get_flashed_messages]
    [flashed_ctx] =
    (Return [VNone; VNone; VList [VStr "saved"; VStr "a"; VStr "b"]],
     [set_flashes (VList [VStr "saved"; VStr "a"; VStr "b"])
        (set_session (delete "_flashes" flashed_session) flashed_ctx)]).
Proof.
  exact (flash_then_get_flashed_messages flashed_ctx [] flashed_session
           [VStr "saved"] [VStr "a"; VStr "b"] eq_refl eq_refl eq_refl).
Defined.

(** X4 on [hello_app]. *)
Lemma dispatch_success_witness :
  dispatch_request hello_app [hello_ctx] =
    (Return (VStr "hello"), [matched "hello" ∅ hello_ctx]).
Proof.
  exact (proj1 (dispatch_success hello_app (get "/hello") [] hello_ctx []
                  "hello" ∅ hello (VStr "hello") [matched "hello" ∅ hello_ctx]
                  eq_refl eq_refl eq_refl eq_refl)).
Defined.

(** X5 on [guarded_app]: the failure of the second hook carries status
    401, a handler is registered for 401, and the invocation still ends
    with the failure. *)
Lemma before_request_failure_witness :
  wsgi_app guarded_app (get "/") [] = (Raise (HTTPException 401 "Unauthorized"), []).
Proof.
  refine (proj2 (before_request_failure guarded_app [quiet] deny [closed] (get "/") []
                  [request_context guarded_app (get "/")]
                  [request_context guarded_app (get "/")]
                  (HTTPException 401 "Unauthorized") eq_refl _ eq_refl)).
  eapply arn_cons; [reflexivity | apply arn_nil].
Defined.

(** X6 on [broken_app]: hook [A] ran, the second hook raised, hook [B]
    did not run. *)
Lemma response_failure_witness :
  process_response broken_app (text "page") [broken_ctx] =
    (Raise (Exception "ValueError" "hook"), [broken_ctx]).
Proof.
  exact (proj2 (response_failure broken_app VNone (text "page") broken_ctx [])
           [λ r, ret (stamp "A" r)] (λ _, raise (Exception "ValueError" "hook"))
           [λ r, ret (stamp "B" r)] (stamp "A" (text "page")) [broken_ctx]
           (Exception "ValueError" "hook") [broken_ctx] eq_refl eq_refl eq_refl).
Defined.

(** X7 on [not_found_app], where routing raises [NotFound]. *)
Lemma debug_only_for_generic_failures_witness :
  dispatch_request (set_debug true not_found_app) [not_found_ctx] =
    dispatch_request not_found_app [not_found_ctx].
Proof.
  apply (debug_only_for_generic_failures not_found_app true [not_found_ctx]).
  intros cls msg. vm_compute. discriminate.
Defined.

(** X8 on [boom_debug_app]: two failing requests leave two contexts. *)
Lemma serve_stack_witness :
  length (snd (serve boom_debug_app [get "/boom"; get "/boom"] [])) =
    (length ([] : LocalStack TestResponse) +
     count_raised (fst (serve boom_debug_app [get "/boom"; get "/boom"] [])))%nat.
Proof.
  exact (proj2 (serve_stack boom_debug_app [get "/boom"; get "/boom"] []
                  boom_debug_app_keeps_stack) eq_refl).
Defined.

(** X9 on a fresh application: the explicit [user] entry is kept. *)
Lemma default_template_context_witness :
  update_template_context (Flask__init__ "demo") explicit_context [user_ctx] =
    (Return (<["request" := VContextAttr attr_request]>
               (<["session" := VNone]> (<["g" := VContextAttr attr_g]> ∅))
             ∪ explicit_context), [user_ctx]).
Proof.
  exact (proj1 (default_template_context (Flask__init__ "demo") explicit_context
                  user_ctx [] eq_refl)).
Defined.

(** X10 on [flashed_ctx]: the flashed message is in the saved session. *)
Lemma saved_session_follows_flash_witness :
  bind (flash (VStr "late")) (λ _, respond session_app (VStr "ok")) [flashed_ctx] =
    after_request_loop (after_request_funcs session_app)
      (save_cookie (<["_flashes" := VList [VStr "saved"; VStr "late"]]> flashed_session)
         (text "ok") (session_cookie_name session_app))
      [set_session (<["_flashes" := VList [VStr "saved"; VStr "late"]]> flashed_session)
         flashed_ctx].
Proof.
  exact (proj1 (saved_session_follows_flash session_app flashed_ctx [] flashed_session
                  [VStr "saved"] (VStr "late") (VStr "ok") (text "ok")
                  eq_refl eq_refl eq_refl)).
Defined.

(** X11 on [hello_app]. *)
Lemma route_dispatches_witness :
  MapAdapter_match (url_adapter hello_ctx) = Return ("hello", ∅).
Proof.
  refine (proj1 (route_dispatches (Flask__init__ "demo") "/hello" "hello" None hello
                   (get "/hello") hello_ctx [] ∅ eq_refl _ eq_refl _)).
  - repeat constructor.
  - apply list_elem_of_here.
Defined.

(** X12 on [pages_app]: a request for [/a], the rule registered with
    [page1], is answered by [page2]. *)
Lemma route_same_name_replaces_witness :
  dispatch_request pages_app [pages_ctx] =
    try_except (page2 ∅) (dispatch_except pages_app) [matched "page" ∅ pages_ctx].
Proof.
  refine (proj2 (route_same_name_replaces (Flask__init__ "demo") "/a" "/b" "page"
                   None None page1 page2 (get "/a") pages_ctx [] ∅ eq_refl _ eq_refl _)).
  - repeat constructor.
  - apply list_elem_of_here.
Defined.

(** X14 on a fresh application, which has no secret key. *)
Lemma session_needs_secret_key_witness :
  session (request_context (Flask__init__ "demo") (get "/")) = None (A:=gmap string (value TestResponse)).
Proof.
  exact (proj1 (proj1 (session_needs_secret_key (Flask__init__ "demo") (get "/") [])
                  eq_refl)).
Defined.
